(** * aiida-cp2k, examples/single_calculations/example_excitation.py

    A shallow embedding of the example script that submits a CP2K
    excited-state calculation through AiiDA, and the properties of its
    configuration tree, of its builder and of its command-line wrapper.

    The script is a straight line of calls into external libraries
    (ase, aiida, click).  Those libraries are not part of the repository:
    their answers are taken from a [World] of oracles, every one of which
    may return a value or raise, and every call the script makes is written
    to a trace of events. *)

From Stdlib Require Import ZArith Lia Ascii String.
From stdpp Require Import gmap strings list fin_maps.

Set Warnings "-register-all".
Open Scope string_scope.

(** ** Python literals of the configuration tree *)

Module Py.

(** The values that occur in the [dict=...] literal handed to [Dict].  A
    float literal is kept as the decimal number it denotes, mantissa times
    ten to the exponent ([1.0e-12] is [PyFloat 1 (-12)], [0.75] is
    [PyFloat 75 (-2)]): the script does no arithmetic on floats. *)
Inductive PyVal : Type :=
| PyInt (z : Z)
| PyFloat (mantissa exponent : Z)
| PyBool (b : bool)
| PyStr (s : string)
| PyList (items : list PyVal)
| PyDict (entries : gmap string PyVal).

(** A dict display [{k1: v1, ..., kn: vn}] stores its items from left to
    right, a later item replacing an earlier one with the same key. *)
Definition dict_display (items : list (string * PyVal)) : PyVal :=
  PyDict (foldl (fun m kv => <[kv.1 := kv.2]> m) ∅ items).

(** [d[k]], where [None] stands for a failed subscript. *)
Definition getitem (v : PyVal) (k : string) : option PyVal :=
  match v with
  | PyDict m => m !! k
  | _ => None
  end.

(** [d[k1][k2]...[kn]]. *)
Fixpoint getpath (v : PyVal) (ks : list string) : option PyVal :=
  match ks with
  | [] => Some v
  | k :: ks' =>
      match getitem v k with
      | Some v' => getpath v' ks'
      | None => None
      end
  end.

(** The keys of a dict, as a set. *)
Definition keys (v : PyVal) : gset string :=
  match v with
  | PyDict m => dom m
  | _ => ∅
  end.

(** The file names a CP2K file-name keyword carries: one string, or a list
    of strings when the keyword is repeated. *)
Definition strings_of (v : PyVal) : list string :=
  match v with
  | PyStr s => [s]
  | PyList items =>
      flat_map (fun i => match i with PyStr s => [s] | _ => [] end) items
  | _ => []
  end.

End Py.
Import Py.

(** ** The part of [os.path] (posixpath) the script calls *)

Module posixpath.

Definition sep : ascii := "/"%char.

Definition startswith_sep (p : string) : bool :=
  match p with
  | String c _ => Ascii.eqb c sep
  | EmptyString => false
  end.

Fixpoint endswith_sep (p : string) : bool :=
  match p with
  | EmptyString => false
  | String c EmptyString => Ascii.eqb c sep
  | String _ r => endswith_sep r
  end.

Definition is_empty (p : string) : bool :=
  match p with
  | EmptyString => true
  | _ => false
  end.

(** One round of the loop of [join]: an absolute component restarts the
    path, otherwise the component is appended, with a separator unless the
    path so far is empty or already ends with one. *)
Definition join_step (path b : string) : string :=
  if startswith_sep b then b
  else if is_empty path || endswith_sep path then path +:+ b
  else path +:+ "/" +:+ b.

(** [os.path.join(a, *p)]. *)
Definition join (a : string) (p : list string) : string :=
  foldl join_step a p.

(** Does the path contain a separator? *)
Fixpoint has_sep (p : string) : bool :=
  match p with
  | EmptyString => false
  | String c r => Ascii.eqb c sep || has_sep r
  end.

(** [os.path.basename(p)]: [p[i:]] with [i = p.rfind('/') + 1]. *)
Fixpoint basename (p : string) : string :=
  match p with
  | EmptyString => EmptyString
  | String c r =>
      if has_sep r then basename r
      else if Ascii.eqb c sep then r
      else p
  end.

(** [p[:i]] with [i = p.rfind('/') + 1]. *)
Fixpoint head (p : string) : string :=
  match p with
  | EmptyString => EmptyString
  | String c r =>
      if has_sep r then String c (head r)
      else if Ascii.eqb c sep then String c EmptyString
      else EmptyString
  end.

(** [s == '/' * len(s)]. *)
Fixpoint all_sep (s : string) : bool :=
  match s with
  | EmptyString => true
  | String c r => Ascii.eqb c sep && all_sep r
  end.

(** [s.rstrip('/')]. *)
Fixpoint rstrip_sep (s : string) : string :=
  match s with
  | EmptyString => EmptyString
  | String c r =>
      match rstrip_sep r with
      | EmptyString => if Ascii.eqb c sep then EmptyString else String c EmptyString
      | r' => String c r'
      end
  end.

(** [os.path.dirname(p)]: the head, without its trailing separators unless
    it consists of separators only. *)
Definition dirname (p : string) : string :=
  let h := head p in
  if negb (is_empty h) && negb (all_sep h) then rstrip_sep h else h.

End posixpath.

(** ** The configuration tree *)

(** The literal passed as [Dict(dict=...)] (source lines 44-130). *)
Definition parameters_dict : PyVal :=
  dict_display [
    ("FORCE_EVAL", dict_display [
      ("METHOD", PyStr "Quickstep");
      ("PROPERTIES", dict_display [
        ("TDDFPT", dict_display [
          ("NSTATES", PyInt 2);
          ("MAX_ITER", PyInt 50);
          ("CONVERGENCE", PyStr "[eV] 1.0e-5");
          ("ADMM_KERNEL_CORRECTION_SYMMETRIC", PyBool true)
        ])
      ]);
      ("DFT", dict_display [
        ("BASIS_SET_FILE_NAME", PyList [PyStr "BASIS_ccGRB_UZH"; PyStr "BASIS_ADMM_UZH"]);
        ("POTENTIAL_FILE_NAME", PyStr "POTENTIAL_UZH");
        ("QS", dict_display [
          ("EPS_DEFAULT", PyFloat 1 (-12));
          ("WF_INTERPOLATION", PyStr "ps");
          ("EXTRAPOLATION_ORDER", PyInt 3)
        ]);
        ("MGRID", dict_display [
          ("CUTOFF", PyInt 900);
          ("REL_CUTOFF", PyInt 60)
        ]);
        ("AUXILIARY_DENSITY_MATRIX_METHOD", dict_display [
          ("METHOD", PyStr "BASIS_PROJECTION");
          ("ADMM_PURIFICATION_METHOD", PyStr "NONE");
          ("EXCH_SCALING_MODEL", PyStr "NONE");
          ("EXCH_CORRECTION_FUNC", PyStr "NONE")
        ]);
        ("EXCITED_STATES", dict_display [
          ("STATE", PyInt 1)
        ]);
        ("XC", dict_display [
          ("XC_FUNCTIONAL", dict_display [
            ("GGA_C_PBE", dict_display []);
            ("GGA_X_PBE", dict_display [
              ("SCALE", PyFloat 75 (-2))
            ])
          ]);
          ("HF", dict_display [
            ("FRACTION", PyFloat 25 (-2));
            ("HF_INFO", dict_display []);
            ("INTERACTION_POTENTIAL", dict_display [
              ("POTENTIAL_TYPE", PyStr "TRUNCATED");
              ("CUTOFF_RADIUS", PyFloat 4 0)
            ]);
            ("SCREENING", dict_display [
              ("EPS_SCHWARZ", PyFloat 1 (-10));
              ("SCREEN_ON_INITIAL_P", PyBool false)
            ]);
            ("MEMORY", dict_display [
              ("MAX_MEMORY", PyInt 3000)
            ])
          ])
        ]);
        ("POISSON", dict_display [
          ("PERIODIC", PyStr "NONE");
          ("PSOLVER", PyStr "WAVELET")
        ])
      ]);
      ("SUBSYS", dict_display [
        ("CELL", dict_display [
          ("ABC", PyStr "14.0 14.0 14.0");
          ("PERIODIC", PyStr "NONE")
        ]);
        ("TOPOLOGY", dict_display [
          ("CENTER_COORDINATES", dict_display [])
        ]);
        ("KIND", PyList [
          dict_display [
            ("_", PyStr "H");
            ("BASIS_SET ORB", PyStr "ccGRB-D-q1");
            ("BASIS_SET AUX_FIT", PyStr "admm-dzp-q1");
            ("POTENTIAL", PyStr "GTH-PBE0-q1")
          ];
          dict_display [
            ("_", PyStr "C");
            ("BASIS_SET ORB", PyStr "ccGRB-D-q4");
            ("BASIS_SET AUX_FIT", PyStr "admm-dzp-q4");
            ("POTENTIAL", PyStr "GTH-PBE0-q4")
          ]
        ])
      ])
    ])
  ].

(** ** External objects, exceptions and events *)

(** Objects made by the external libraries are opaque to the script: each
    is known by its identity only. *)
Record Atoms := mkAtoms { atoms_id : N }.
Record StructureData := mkStructureData { structure_id : N }.
Record SinglefileData := mkSinglefileData { singlefile_id : N }.
Record Dict := mkDict { dict_id : N }.
Record Code := mkCode { code_id : N }.

(** What the script stores in attributes of the builder. *)
Inductive Value : Type :=
| VStructure (s : StructureData)
| VDict (d : Dict)
| VCode (c : Code)
| VFiles (files : gmap string SinglefileData)
| VIntDict (d : gmap string Z)
| VInt (z : Z).

(** The process builder, seen as the store of its attributes.  Nested
    attributes are keyed by their dotted name, so
    [builder.metadata.options.resources] is the key
    ["metadata.options.resources"]. *)
Abbreviation Builder := (gmap string Value).

(** Exceptions.  [NotExistent] stands for any instance of
    [aiida.common.NotExistent], [SystemExit] for the exception [sys.exit]
    raises, and [Exception cls] for an exception of any other class. *)
Inductive exn : Type :=
| NotExistent
| SystemExit (status : Z)
| Exception (cls : string).

(** The result of a call: a value, or an exception on its way up. *)
Inductive Outcome (A : Type) : Type :=
| Ret (a : A)
| Raise (e : exn).
Arguments Ret {A} a.
Arguments Raise {A} e.

(** The calls the script makes into ase and aiida. *)
Inductive ExtCall : Type :=
| AseRead (path : string)               (* ase.io.read(path) *)
| NewStructureData (ase : Atoms)        (* StructureData(ase=...) *)
| NewSinglefileData (file : string)     (* SinglefileData(file=...) *)
| NewDict (dict : PyVal)                (* Dict(dict=...) *)
| GetFromString (label : string)        (* Code.get_from_string(label) *)
| GetBuilder (code : Code)              (* code.get_builder() *)
| SetAttr (attr : string) (v : Value)   (* builder.<attr> = v *)
| Run (builder : Builder).              (* run(builder) *)

(** What an execution does to the outside, in order.  A call is recorded
    with the exception it raised, if it raised one.  [EvFileWrite] is a
    file created or overwritten through the Python runtime
    ([open(path, 'w').write(data)]). *)
Inductive Event : Type :=
| EvPrint (msg : string)
| EvCall (c : ExtCall) (raised : option exn)
| EvFileWrite (path data : string).

Definition raised_by {A} (r : Outcome A) : option exn :=
  match r with
  | Ret _ => None
  | Raise e => Some e
  end.

(** ** The monad of the script: a result or an exception, and the events
    emitted so far *)

Definition M (A : Type) : Type := Outcome A * list Event.

Definition ret {A} (a : A) : M A := (Ret a, []).

Definition bind {A B} (m : M A) (f : A -> M B) : M B :=
  match m with
  | (Ret a, t) => let '(o, t') := f a in (o, (t ++ t')%list)
  | (Raise e, t) => (Raise e, t)
  end.

Definition raise {A} (e : exn) : M A := (Raise e, []).

(** An external call with the answer [r]. *)
Definition call {A} (c : ExtCall) (r : Outcome A) : M A :=
  (r, [EvCall c (raised_by r)]).

(** [try: m except <catches>: handler]. *)
Definition try_except {A} (m : M A) (catches : exn -> bool) (handler : M A) : M A :=
  match m with
  | (Raise e, t) =>
      if catches e then let '(o, t') := handler in (o, (t ++ t')%list)
      else (Raise e, t)
  | (Ret a, t) => (Ret a, t)
  end.

Declare Scope script_scope.
Delimit Scope script_scope with script.
Notation "x <- m ; k" := (bind m (fun x => k))
  (at level 20, m at level 100, k at level 200, only parsing) : script_scope.
Notation "m ;; k" := (bind m (fun _ => k))
  (at level 100, k at level 200, only parsing, right associativity) : script_scope.
Open Scope script_scope.

(** The Python runtime. *)
Definition print (msg : string) : M unit := (Ret tt, [EvPrint msg]).
Definition sys_exit {A} (status : Z) : M A := raise (SystemExit status).
Definition write_file (path data : string) : M unit := (Ret tt, [EvFileWrite path data]).

(** [except NotExistent]. *)
Definition is_NotExistent (e : exn) : bool :=
  match e with
  | NotExistent => true
  | _ => false
  end.

(** The status with which the interpreter ends the process: 0 after a normal
    return, the status of a [SystemExit], 1 after any other uncaught
    exception. *)
Definition exit_status {A} (o : Outcome A) : Z :=
  match o with
  | Ret _ => 0
  | Raise (SystemExit status) => status
  | Raise _ => 1
  end.

(** ** The world outside the script *)

Record World : Type := {
  (** [os.path.realpath(__file__)] *)
  realpath_file : string;
  (** [ase.io.read(path)] *)
  ase_io_read : string -> Outcome Atoms;
  (** [StructureData(ase=atoms)] *)
  StructureData_new : Atoms -> Outcome StructureData;
  (** [SinglefileData(file=path)] *)
  SinglefileData_new : string -> Outcome SinglefileData;
  (** [Dict(dict=d)] *)
  Dict_new : PyVal -> Outcome Dict;
  (** [Code.get_from_string(label)] *)
  Code_get_from_string : string -> Outcome Code;
  (** [code.get_builder()] *)
  Code_get_builder : Code -> Outcome Builder;
  (** the validation the builder runs on [builder.<attr> = v]: the
      exception it raises, if it rejects the value *)
  builder_validate : Builder -> string -> Value -> option exn;
  (** [run(builder)], whose return value the script drops *)
  engine_run : Builder -> Outcome unit
}.

(** ** The script *)

Section Script.

Variable w : World.

Definition setattr (builder : Builder) (attr : string) (v : Value) : M Builder :=
  call (SetAttr attr v)
       (match builder_validate w builder attr v with
        | Some e => Raise e
        | None => Ret (<[attr := v]> builder)
        end).

(** [example_excitation(cp2k_code)], source lines 24-150. *)
Definition example_excitation (cp2k_code : Code) : M unit :=
  print "Testing CP2K excited state ENERGY on acetylene (DFT-ADMM)...";;
  let thisdir := posixpath.dirname (realpath_file w) in
  (* Structure. *)
  let structure_file := posixpath.join thisdir [".."; "files"; "acetylene.xyz"] in
  atoms <- call (AseRead structure_file) (ase_io_read w structure_file);
  structure <- call (NewStructureData atoms) (StructureData_new w atoms);
  (* Basis set. *)
  let molopt := posixpath.join thisdir [".."; "files"; "BASIS_MOLOPT"] in
  basis_file_molopt <- call (NewSinglefileData molopt) (SinglefileData_new w molopt);
  let grb := posixpath.join thisdir [".."; "files"; "BASIS_ccGRB_UZH"] in
  basis_file_grb <- call (NewSinglefileData grb) (SinglefileData_new w grb);
  let admm := posixpath.join thisdir [".."; "files"; "BASIS_ADMM_UZH"] in
  basis_file_admm <- call (NewSinglefileData admm) (SinglefileData_new w admm);
  (* Pseudopotentials. *)
  let gth := posixpath.join thisdir [".."; "files"; "GTH_POTENTIALS"] in
  pseudo_file <- call (NewSinglefileData gth) (SinglefileData_new w gth);
  (* Parameters. *)
  parameters <- call (NewDict parameters_dict) (Dict_new w parameters_dict);
  (* Construct process builder. *)
  builder <- call (GetBuilder cp2k_code) (Code_get_builder w cp2k_code);
  builder <- setattr builder "structure" (VStructure structure);
  builder <- setattr builder "parameters" (VDict parameters);
  builder <- setattr builder "code" (VCode cp2k_code);
  builder <- setattr builder "file"
    (VFiles (<["pseudo" := pseudo_file]>
            (<["basis_admm" := basis_file_admm]>
            (<["basis_grb" := basis_file_grb]>
            (<["basis_molopt" := basis_file_molopt]> ∅)))));
  builder <- setattr builder "metadata.options.resources"
    (VIntDict (<["num_mpiprocs_per_machine" := 1%Z]>
              (<["num_machines" := 16%Z]> ∅)));
  builder <- setattr builder "metadata.options.max_wallclock_seconds"
    (VInt (1 * 3 * 60));
  print "Submitted calculation...";;
  call (Run builder) (engine_run w builder).

(** [cli(codelabel)], source lines 155-162: the body of the click command. *)
Definition cli (codelabel : string) : M unit :=
  code <- try_except
               (call (GetFromString codelabel) (Code_get_from_string w codelabel))
               is_NotExistent
               (print ("The code '" +:+ codelabel +:+ "' does not exist.");;
                sys_exit 1);
  example_excitation code.

End Script.

(** The declaration of the command: [@click.command('cli')] with one
    [@click.argument('codelabel')], around the callback [cli]. *)
Record Command : Type := {
  cmd_name : string;
  cmd_arguments : list string;
  cmd_callback : string -> M unit
}.

Definition cli_command (w : World) : Command :=
  {| cmd_name := "cli"; cmd_arguments := ["codelabel"]; cmd_callback := cli w |}.

(** ** Observations on traces *)

(** The builders handed to [run]. *)
Definition run_builders (tr : list Event) : list Builder :=
  flat_map (fun ev => match ev with EvCall (Run b) _ => [b] | _ => [] end) tr.

Definition run_count (tr : list Event) : nat := length (run_builders tr).

(** The values assigned to the attribute [attr] of the builder. *)
Definition assigned (attr : string) (tr : list Event) : list Value :=
  flat_map (fun ev =>
              match ev with
              | EvCall (SetAttr a v) _ => if String.eqb a attr then [v] else []
              | _ => []
              end) tr.

(** The paths of the files read, by [ase.io.read] or by [SinglefileData]. *)
Definition read_paths (tr : list Event) : list string :=
  flat_map (fun ev =>
              match ev with
              | EvCall (AseRead p) _ => [p]
              | EvCall (NewSinglefileData p) _ => [p]
              | _ => []
              end) tr.

(** The dicts wrapped into a [Dict] node. *)
Definition dict_args (tr : list Event) : list PyVal :=
  flat_map (fun ev => match ev with EvCall (NewDict d) _ => [d] | _ => [] end) tr.

(** The lines printed. *)
Definition printed (tr : list Event) : list string :=
  flat_map (fun ev => match ev with EvPrint msg => [msg] | _ => [] end) tr.

(** The calls that raised, with their exceptions. *)
Definition raised (tr : list Event) : list (ExtCall * exn) :=
  flat_map (fun ev => match ev with EvCall c (Some e) => [(c, e)] | _ => [] end) tr.

Definition is_file_write (ev : Event) : bool :=
  match ev with
  | EvFileWrite _ _ => true
  | _ => false
  end.

(** The files after the events of a trace, from the files before it. *)
Definition fs_event (fs : gmap string string) (ev : Event) : gmap string string :=
  match ev with
  | EvFileWrite path data => <[path := data]> fs
  | _ => fs
  end.

Definition fs_after (tr : list Event) (fs : gmap string string) : gmap string string :=
  foldl fs_event fs tr.

(** The try block of [cli] encloses the code lookup only, and its handler
    takes [NotExistent] only. *)
Definition handled_by_cli (c : ExtCall) (e : exn) : bool :=
  match c with
  | GetFromString _ => is_NotExistent e
  | _ => false
  end.

(** The five input files, under the directory [thisdir] of the script. *)
Definition input_files (thisdir : string) : list string :=
  map (fun name => posixpath.join thisdir [".."; "files"; name])
      ["acetylene.xyz"; "BASIS_MOLOPT"; "BASIS_ccGRB_UZH"; "BASIS_ADMM_UZH"; "GTH_POTENTIALS"].

(** ** Sample worlds *)

Fixpoint index_of (x : string) (l : list string) : option N :=
  match l with
  | [] => None
  | y :: l' => if String.eqb x y then Some 0%N
               else match index_of x l' with
                    | Some i => Some (N.succ i)
                    | None => None
                    end
  end.

(** A world with the files [files] on disk and the codes [codes] in the
    database, where the builder takes every value and [run] returns.  As
    aiida does, [get_builder] hands out a builder whose code is set. *)
Definition sample_world (script : string) (files codes : list string) : World :=
  {| realpath_file := script;
     ase_io_read p :=
       match index_of p files with
       | Some i => Ret (mkAtoms i)
       | None => Raise (Exception "FileNotFoundError")
       end;
     StructureData_new a := Ret (mkStructureData (atoms_id a));
     SinglefileData_new p :=
       match index_of p files with
       | Some i => Ret (mkSinglefileData i)
       | None => Raise (Exception "FileNotFoundError")
       end;
     Dict_new _ := Ret (mkDict 0);
     Code_get_from_string label :=
       match index_of label codes with
       | Some i => Ret (mkCode i)
       | None => Raise NotExistent
       end;
     Code_get_builder c := Ret (<["code" := VCode c]> ∅);
     builder_validate _ _ _ := None;
     engine_run _ := Ret tt |}.

Definition sample_script : string :=
  "/repo/examples/single_calculations/example_excitation.py".

(** Every input file is there, and the code "cp2k@localhost" is known. *)
Definition world_ok : World :=
  sample_world sample_script
    (input_files "/repo/examples/single_calculations") ["cp2k@localhost"].

(** The geometry file is missing. *)
Definition world_no_geometry : World :=
  sample_world sample_script
    (tail (input_files "/repo/examples/single_calculations")) ["cp2k@localhost"].

(** [run] raises. *)
Definition world_run_fails : World :=
  {| realpath_file := realpath_file world_ok;
     ase_io_read := ase_io_read world_ok;
     StructureData_new := StructureData_new world_ok;
     SinglefileData_new := SinglefileData_new world_ok;
     Dict_new := Dict_new world_ok;
     Code_get_from_string := Code_get_from_string world_ok;
     Code_get_builder := Code_get_builder world_ok;
     builder_validate := builder_validate world_ok;
     engine_run _ := Raise (Exception "RuntimeError") |}.

(** ** Predicates on executions *)

(** An execution in which no exception is caught: either it returns and no
    call has raised, or it ends with the exception of its last call, the
    only call that raised. *)
Definition propagates {A} (m : M A) : Prop :=
  match m with
  | (Ret _, tr) => raised tr = []
  | (Raise e, tr) =>
      exists pre c, tr = (pre ++ [EvCall c (Some e)])%list /\ raised pre = []
  end.

(** An execution all of whose events pass the test [p]. *)
Definition emits_only {A} (p : Event -> bool) (m : M A) : Prop :=
  Forall (fun ev => p ev = true) (snd m).

Definition not_file_write (ev : Event) : bool := negb (is_file_write ev).

(** Any event but a code lookup. *)
Definition not_lookup (ev : Event) : bool :=
  match ev with
  | EvCall (GetFromString _) _ => false
  | _ => true
  end.

(** The builder after the six assignments of the script, from the builder
    [b0] that [get_builder] handed out. *)
Definition populated (b0 : Builder) (code : Code) (structure : StructureData)
    (parameters : Dict) (molopt grb admm pseudo : SinglefileData) : Builder :=
  <["metadata.options.max_wallclock_seconds" := VInt 180]>
  (<["metadata.options.resources" :=
       VIntDict (<["num_mpiprocs_per_machine" := 1%Z]> (<["num_machines" := 16%Z]> ∅))]>
  (<["file" :=
       VFiles (<["pseudo" := pseudo]> (<["basis_admm" := admm]>
              (<["basis_grb" := grb]> (<["basis_molopt" := molopt]> ∅))))]>
  (<["code" := VCode code]>
  (<["parameters" := VDict parameters]>
  (<["structure" := VStructure structure]> b0))))).

(** The events of an execution that gets as far as [run], before [run]. *)
Definition preparation (thisdir : string) (b0 : Builder) (code : Code)
    (atoms : Atoms) (structure : StructureData) (parameters : Dict)
    (molopt grb admm pseudo : SinglefileData) : list Event :=
  [ EvPrint "Testing CP2K excited state ENERGY on acetylene (DFT-ADMM)...";
    EvCall (AseRead (posixpath.join thisdir [".."; "files"; "acetylene.xyz"])) None;
    EvCall (NewStructureData atoms) None;
    EvCall (NewSinglefileData (posixpath.join thisdir [".."; "files"; "BASIS_MOLOPT"])) None;
    EvCall (NewSinglefileData (posixpath.join thisdir [".."; "files"; "BASIS_ccGRB_UZH"])) None;
    EvCall (NewSinglefileData (posixpath.join thisdir [".."; "files"; "BASIS_ADMM_UZH"])) None;
    EvCall (NewSinglefileData (posixpath.join thisdir [".."; "files"; "GTH_POTENTIALS"])) None;
    EvCall (NewDict parameters_dict) None;
    EvCall (GetBuilder code) None;
    EvCall (SetAttr "structure" (VStructure structure)) None;
    EvCall (SetAttr "parameters" (VDict parameters)) None;
    EvCall (SetAttr "code" (VCode code)) None;
    EvCall (SetAttr "file"
              (VFiles (<["pseudo" := pseudo]> (<["basis_admm" := admm]>
                      (<["basis_grb" := grb]> (<["basis_molopt" := molopt]> ∅)))))) None;
    EvCall (SetAttr "metadata.options.resources"
              (VIntDict (<["num_mpiprocs_per_machine" := 1%Z]>
                        (<["num_machines" := 16%Z]> ∅)))) None;
    EvCall (SetAttr "metadata.options.max_wallclock_seconds" (VInt 180)) None;
    EvPrint "Submitted calculation..." ].

(** The attributes of the builder the script assigns. *)
Definition populated_attrs : list string :=
  ["structure"; "parameters"; "code"; "file";
   "metadata.options.resources"; "metadata.options.max_wallclock_seconds"].

(** The file names the parameters refer to: the basis-set files and the
    pseudopotential file of the DFT section. *)
Definition referenced_files (d : PyVal) : list string :=
  (match getpath d ["FORCE_EVAL"; "DFT"; "BASIS_SET_FILE_NAME"] with
   | Some v => strings_of v
   | None => []
   end ++
   match getpath d ["FORCE_EVAL"; "DFT"; "POTENTIAL_FILE_NAME"] with
   | Some v => strings_of v
   | None => []
   end)%list.

(** The file attached under [key] was loaded from a path whose base name is
    [name]. *)
Definition attached_from (w : World) (files : gmap string SinglefileData)
    (key name : string) : Prop :=
  exists path node,
    posixpath.basename path = name /\
    SinglefileData_new w path = Ret node /\
    files !! key = Some node.

(** The builder that reaches [run] in [world_ok], for the first code. *)
Definition builder_ok : Builder :=
  populated (<["code" := VCode (mkCode 0)]> ∅) (mkCode 0) (mkStructureData 0) (mkDict 0)
            (mkSinglefileData 1) (mkSinglefileData 2) (mkSinglefileData 3)
            (mkSinglefileData 4).

(** ** Further observations and sample worlds *)

(** The two lines [example_excitation] prints, and the line of the handler
    of [cli]. *)
Definition testing_line : string :=
  "Testing CP2K excited state ENERGY on acetylene (DFT-ADMM)...".

Definition submitted_line : string := "Submitted calculation...".

Definition not_exist_line (codelabel : string) : string :=
  "The code '" +:+ codelabel +:+ "' does not exist.".

(** The directory all input files are taken from. *)
Definition files_dir (thisdir : string) : string :=
  posixpath.join thisdir [".."; "files"].

(** The names of the input files, in the order they are read. *)
Definition input_names : list string :=
  ["acetylene.xyz"; "BASIS_MOLOPT"; "BASIS_ccGRB_UZH"; "BASIS_ADMM_UZH"; "GTH_POTENTIALS"].

(** As [world_ok], but [get_builder] hands out a builder in which a memory
    limit is set besides the code. *)
Definition world_preset : World :=
  {| realpath_file := realpath_file world_ok;
     ase_io_read := ase_io_read world_ok;
     StructureData_new := StructureData_new world_ok;
     SinglefileData_new := SinglefileData_new world_ok;
     Dict_new := Dict_new world_ok;
     Code_get_from_string := Code_get_from_string world_ok;
     Code_get_builder c :=
       Ret (<["metadata.options.max_memory_kb" := VInt 2000000]>
            (<["code" := VCode c]> ∅));
     builder_validate := builder_validate world_ok;
     engine_run := engine_run world_ok |}.

(** The builder that reaches [run] in [world_preset], for the first code. *)
Definition builder_preset : Builder :=
  populated (<["metadata.options.max_memory_kb" := VInt 2000000]>
             (<["code" := VCode (mkCode 0)]> ∅))
            (mkCode 0) (mkStructureData 0) (mkDict 0)
            (mkSinglefileData 1) (mkSinglefileData 2) (mkSinglefileData 3)
            (mkSinglefileData 4).

(** The builder rejects the resources. *)
Definition world_rejects_resources : World :=
  {| realpath_file := realpath_file world_ok;
     ase_io_read := ase_io_read world_ok;
     StructureData_new := StructureData_new world_ok;
     SinglefileData_new := SinglefileData_new world_ok;
     Dict_new := Dict_new world_ok;
     Code_get_from_string := Code_get_from_string world_ok;
     Code_get_builder := Code_get_builder world_ok;
     builder_validate _ attr _ :=
       if String.eqb attr "metadata.options.resources"
       then Some (Exception "ValueError") else None;
     engine_run := engine_run world_ok |}.

(** Every call before [run] returns: the geometry is read and made into a
    structure, the four files are loaded, the tree is wrapped into its
    [Dict], [get_builder] hands out [b0], and the builder takes each of the
    six assignments, in the state the earlier ones left it in. *)
Definition prepared (w : World) (code : Code) (atoms : Atoms)
    (structure : StructureData) (molopt grb admm pseudo : SinglefileData)
    (parameters : Dict) (b0 : Builder) : Prop :=
  let thisdir := posixpath.dirname (realpath_file w) in
  let files :=
    VFiles (<["pseudo" := pseudo]> (<["basis_admm" := admm]>
           (<["basis_grb" := grb]> (<["basis_molopt" := molopt]> ∅)))) in
  let resources :=
    VIntDict (<["num_mpiprocs_per_machine" := 1%Z]> (<["num_machines" := 16%Z]> ∅)) in
  let b1 := <["structure" := VStructure structure]> b0 in
  let b2 := <["parameters" := VDict parameters]> b1 in
  let b3 := <["code" := VCode code]> b2 in
  let b4 := <["file" := files]> b3 in
  let b5 := <["metadata.options.resources" := resources]> b4 in
  ase_io_read w (posixpath.join thisdir [".."; "files"; "acetylene.xyz"]) = Ret atoms /\
  StructureData_new w atoms = Ret structure /\
  SinglefileData_new w (posixpath.join thisdir [".."; "files"; "BASIS_MOLOPT"]) = Ret molopt /\
  SinglefileData_new w (posixpath.join thisdir [".."; "files"; "BASIS_ccGRB_UZH"]) = Ret grb /\
  SinglefileData_new w (posixpath.join thisdir [".."; "files"; "BASIS_ADMM_UZH"]) = Ret admm /\
  SinglefileData_new w (posixpath.join thisdir [".."; "files"; "GTH_POTENTIALS"]) = Ret pseudo /\
  Dict_new w parameters_dict = Ret parameters /\
  Code_get_builder w code = Ret b0 /\
  builder_validate w b0 "structure" (VStructure structure) = None /\
  builder_validate w b1 "parameters" (VDict parameters) = None /\
  builder_validate w b2 "code" (VCode code) = None /\
  builder_validate w b3 "file" files = None /\
  builder_validate w b4 "metadata.options.resources" resources = None /\
  builder_validate w b5 "metadata.options.max_wallclock_seconds" (VInt 180) = None.

(** The events up to the request for the builder, when every input has
    been loaded. *)
Definition inputs_loaded (thisdir : string) (atoms : Atoms) : list Event :=
  [ EvPrint "Testing CP2K excited state ENERGY on acetylene (DFT-ADMM)...";
    EvCall (AseRead (posixpath.join thisdir [".."; "files"; "acetylene.xyz"])) None;
    EvCall (NewStructureData atoms) None;
    EvCall (NewSinglefileData (posixpath.join thisdir [".."; "files"; "BASIS_MOLOPT"])) None;
    EvCall (NewSinglefileData (posixpath.join thisdir [".."; "files"; "BASIS_ccGRB_UZH"])) None;
    EvCall (NewSinglefileData (posixpath.join thisdir [".."; "files"; "BASIS_ADMM_UZH"])) None;
    EvCall (NewSinglefileData (posixpath.join thisdir [".."; "files"; "GTH_POTENTIALS"])) None;
    EvCall (NewDict parameters_dict) None ].

(** * Properties *)

(** ** Sample evaluations *)

Example dirname_script :
  posixpath.dirname "/repo/examples/single_calculations/example_excitation.py"
  = "/repo/examples/single_calculations".
Proof. reflexivity. Qed.

Example dirname_root : posixpath.dirname "/example_excitation.py" = "/".
Proof. reflexivity. Qed.

Example join_files :
  posixpath.join "/repo/examples/single_calculations" [".."; "files"; "acetylene.xyz"]
  = "/repo/examples/single_calculations/../files/acetylene.xyz".
Proof. reflexivity. Qed.

Example join_root : posixpath.join "/" [".."; "files"; "GTH_POTENTIALS"] = "/../files/GTH_POTENTIALS".
Proof. reflexivity. Qed.

Example basename_files :
  posixpath.basename "/repo/examples/single_calculations/../files/BASIS_MOLOPT" = "BASIS_MOLOPT".
Proof. reflexivity. Qed.

Example mgrid_keys :
  keys <$> getpath parameters_dict ["FORCE_EVAL"; "DFT"; "MGRID"]
  = Some {["CUTOFF"; "REL_CUTOFF"]}.
Proof. vm_compute. reflexivity. Qed.

Example kind_elements :
  getpath parameters_dict ["FORCE_EVAL"; "SUBSYS"; "KIND"]
  = Some (PyList [
      dict_display [("_", PyStr "H"); ("BASIS_SET ORB", PyStr "ccGRB-D-q1");
                    ("BASIS_SET AUX_FIT", PyStr "admm-dzp-q1");
                    ("POTENTIAL", PyStr "GTH-PBE0-q1")];
      dict_display [("_", PyStr "C"); ("BASIS_SET ORB", PyStr "ccGRB-D-q4");
                    ("BASIS_SET AUX_FIT", PyStr "admm-dzp-q4");
                    ("POTENTIAL", PyStr "GTH-PBE0-q4")] ]).
Proof. vm_compute. reflexivity. Qed.

(** A write would show in the files. *)
Example write_file_shows :
  fs_after (snd (write_file "out.txt" "x")) ∅ !! "out.txt" = Some "x".
Proof. reflexivity. Qed.

(** When [run] raises, it has been called, and its exception comes out. *)
Example run_raises :
  fst (example_excitation world_run_fails (mkCode 0)) = Raise (Exception "RuntimeError") /\
  run_count (snd (example_excitation world_run_fails (mkCode 0))) = 1 /\
  printed (snd (example_excitation world_run_fails (mkCode 0)))
  = ["Testing CP2K excited state ENERGY on acetylene (DFT-ADMM)...";
     "Submitted calculation..."].
Proof. vm_compute. repeat split. Qed.

Example getpath_method : getpath parameters_dict ["FORCE_EVAL"; "METHOD"] = Some (PyStr "Quickstep").
Proof. vm_compute. reflexivity. Qed.

(** ** Paths *)

Section Paths.

Import posixpath.

Lemma append_cons (c : ascii) (a b : string) :
  String c a +:+ b = String c (a +:+ b).
Proof. reflexivity. Qed.

Lemma append_assoc (a b c : string) : (a +:+ b) +:+ c = a +:+ (b +:+ c).
Proof.
  induction a as [|x a IH]; [reflexivity |].
  rewrite !append_cons. now rewrite IH.
Qed.

Lemma has_sep_append (a b : string) : has_sep (a +:+ b) = has_sep a || has_sep b.
Proof.
  induction a as [|c a IH]; [reflexivity |].
  rewrite append_cons. cbn [has_sep]. rewrite IH. now rewrite orb_assoc.
Qed.

Lemma endswith_sep_append (a : string) (c : ascii) (b : string) :
  endswith_sep (a +:+ String c b) = endswith_sep (String c b).
Proof.
  induction a as [|x a IH]; [reflexivity |].
  rewrite append_cons. rewrite <- IH.
  destruct a as [|y a]; reflexivity.
Qed.

Lemma is_empty_append (a : string) (c : ascii) (b : string) :
  is_empty (a +:+ String c b) = false.
Proof. destruct a; reflexivity. Qed.

(** Appending a component that holds no separator, behind a separator,
    makes it the base name. *)
Lemma basename_append_sep (a x : string) :
  has_sep x = false -> basename (a +:+ String sep x) = x.
Proof.
  intros Hx. induction a as [|c a IH].
  - simpl. now rewrite Hx.
  - rewrite append_cons.
    cbn [basename]. rewrite has_sep_append. cbn [has_sep].
    rewrite Ascii.eqb_refl. cbn [orb]. rewrite orb_true_r. exact IH.
Qed.

(** A component that is not absolute goes behind a separator when the path
    so far is not empty and does not end with one. *)
Lemma join_step_append (path b : string) :
  startswith_sep b = false -> is_empty path = false -> endswith_sep path = false ->
  join_step path b = path +:+ "/" +:+ b.
Proof. intros Hb He Hs. unfold join_step. now rewrite Hb, He, Hs. Qed.

(** The shape of the paths the script builds: the directory, a separator
    unless the directory is empty or ends with one, and the fixed relative
    part. *)
Lemma join_files_shape (d name : string) :
  has_sep name = false ->
  join d [".."; "files"; name] =
  (d +:+ (if is_empty d || endswith_sep d then "" else "/") +:+ "../files") +:+ String sep name.
Proof.
  intros Hn.
  assert (Hs : startswith_sep name = false).
  { destruct name as [|c r]; [reflexivity |]. cbn [has_sep startswith_sep] in Hn |- *.
    now apply orb_false_iff in Hn. }
  unfold join. cbn [foldl].
  assert (H1 : join_step d ".." = (d +:+ (if is_empty d || endswith_sep d then "" else "/")) +:+ "..").
  { unfold join_step. change (startswith_sep "..") with false. cbv iota.
    destruct (is_empty d || endswith_sep d); now rewrite append_assoc. }
  rewrite H1.
  rewrite (join_step_append _ "files");
    [| reflexivity | apply is_empty_append | now rewrite endswith_sep_append].
  rewrite (join_step_append _ name Hs).
  - rewrite !append_assoc. reflexivity.
  - rewrite !append_assoc. destruct (is_empty d || endswith_sep d); apply is_empty_append.
  - rewrite !append_assoc. destruct (is_empty d || endswith_sep d).
    + change ("" +:+ ".." +:+ "/" +:+ "files") with "../files".
      now rewrite endswith_sep_append.
    + change ("/" +:+ ".." +:+ "/" +:+ "files") with "/../files".
      now rewrite endswith_sep_append.
Qed.

(** The base name of such a path is the file name. *)
Lemma basename_join_files (d name : string) :
  has_sep name = false ->
  basename (join d [".."; "files"; name]) = name.
Proof.
  intros Hn. rewrite (join_files_shape d name Hn).
  now apply basename_append_sep.
Qed.

End Paths.

(** ** Executions compose *)

Section Composition.

Context {A B : Type}.

Lemma raised_app (t1 t2 : list Event) :
  raised (t1 ++ t2) = (raised t1 ++ raised t2)%list.
Proof. unfold raised. induction t1; simpl; [easy|]. now rewrite IHt1, app_assoc. Qed.

Lemma propagates_bind (m : M A) (f : A -> M B) :
  propagates m -> (forall a, propagates (f a)) -> propagates (bind m f).
Proof.
  destruct m as [[a|e] t]; simpl; intros Hm Hf; [| exact Hm].
  specialize (Hf a). destruct (f a) as [[b|e] t']; simpl in *.
  - now rewrite raised_app, Hm, Hf.
  - destruct Hf as (pre & c & -> & Hpre).
    exists (t ++ pre)%list, c. split; [now rewrite app_assoc |].
    now rewrite raised_app, Hm, Hpre.
Qed.

Lemma emits_only_bind (p : Event -> bool) (m : M A) (f : A -> M B) :
  emits_only p m -> (forall a, emits_only p (f a)) -> emits_only p (bind m f).
Proof.
  unfold emits_only. destruct m as [[a|e] t]; simpl; intros Hm Hf; [| exact Hm].
  specialize (Hf a). destruct (f a) as [o t']; simpl in *.
  apply Forall_app. now split.
Qed.

End Composition.

Lemma propagates_print (msg : string) : propagates (print msg).
Proof. reflexivity. Qed.

Lemma propagates_call {A} (c : ExtCall) (r : Outcome A) : propagates (call c r).
Proof. destruct r as [a|e]; simpl; [reflexivity |]. now exists [], c. Qed.

Lemma propagates_setattr (w : World) (b : Builder) (attr : string) (v : Value) :
  propagates (setattr w b attr v).
Proof. apply propagates_call. Qed.

Lemma emits_only_print (p : Event -> bool) (msg : string) :
  p (EvPrint msg) = true -> emits_only p (print msg).
Proof. intros H. now constructor. Qed.

Lemma emits_only_call {A} (p : Event -> bool) (c : ExtCall) (r : Outcome A) :
  (forall x, p (EvCall c x) = true) -> emits_only p (call c r).
Proof. intros H. constructor; [apply H | constructor]. Qed.

Lemma emits_only_setattr (p : Event -> bool) (w : World) (b : Builder)
    (attr : string) (v : Value) :
  (forall x, p (EvCall (SetAttr attr v) x) = true) -> emits_only p (setattr w b attr v).
Proof. apply emits_only_call. Qed.

Lemma emits_only_raise {A} (p : Event -> bool) (e : exn) : emits_only p (@raise A e).
Proof. constructor. Qed.

Create HintDb script discriminated.
#[local] Hint Resolve propagates_print propagates_call propagates_setattr
  emits_only_print emits_only_call emits_only_setattr emits_only_raise : script.

(** Walks down the binds of a script, closing each step from the hints. *)
Ltac by_steps bind_lemma :=
  repeat (lazy zeta; apply bind_lemma; [solve [auto with script] | intros ?]);
  lazy zeta; auto with script.

Lemma example_excitation_propagates (w : World) (code : Code) :
  propagates (example_excitation w code).
Proof. unfold example_excitation. by_steps @propagates_bind. Qed.

Lemma example_excitation_writes_nothing (w : World) (code : Code) :
  emits_only not_file_write (example_excitation w code).
Proof. unfold example_excitation. by_steps @emits_only_bind. Qed.

Lemma example_excitation_no_lookup (w : World) (code : Code) :
  emits_only not_lookup (example_excitation w code).
Proof. unfold example_excitation. by_steps @emits_only_bind. Qed.

Lemma cli_writes_nothing (w : World) (codelabel : string) :
  emits_only not_file_write (cli w codelabel).
Proof.
  unfold cli. apply emits_only_bind; [| intros; apply example_excitation_writes_nothing].
  unfold emits_only, try_except, call.
  destruct (Code_get_from_string w codelabel) as [c|e]; simpl; [repeat constructor |].
  destruct (is_NotExistent e); simpl; repeat constructor.
Qed.

(** Events that write no file leave the files as they were. *)
Lemma fs_after_unchanged (tr : list Event) (fs : gmap string string) :
  Forall (fun ev => not_file_write ev = true) tr -> fs_after tr fs = fs.
Proof.
  unfold fs_after. revert fs. induction tr as [|ev tr IH]; intros fs Htr; [reflexivity |].
  inversion Htr as [|? ? Hev Htl]; subst. simpl. rewrite IH by assumption.
  destruct ev; simpl in *; [reflexivity | reflexivity | discriminate].
Qed.

(** In an execution that propagates, a call that raised is the last event,
    and its exception is the outcome. *)
Lemma propagates_raised {A} (m : M A) (c : ExtCall) (e : exn) :
  propagates m -> In (EvCall c (Some e)) (snd m) ->
  fst m = Raise e /\ last (snd m) = Some (EvCall c (Some e)).
Proof.
  assert (Hin : forall tr, In (EvCall c (Some e)) tr -> In (c, e) (raised tr)).
  { intros tr Htr. unfold raised. apply in_flat_map.
    exists (EvCall c (Some e)). split; [assumption | now left]. }
  destruct m as [[a|e'] tr]; simpl; intros Hm Htr.
  - apply Hin in Htr. rewrite Hm in Htr. destruct Htr.
  - destruct Hm as (pre & c' & -> & Hpre).
    apply in_app_or in Htr as [Htr | [Heq | []]].
    + apply Hin in Htr. rewrite Hpre in Htr. destruct Htr.
    + inversion Heq; subst. split; [reflexivity | apply last_snoc].
Qed.

(** ** The executions of [example_excitation], case by case *)

(** Runs the script one external call further, on both of its answers. *)
Ltac exec_step :=
  match goal with
  | |- context [builder_validate ?w ?b ?a ?v] =>
      destruct (builder_validate w b a v) eqn:?
  | |- context [match ?r with Ret _ => _ | Raise _ => _ end] =>
      destruct r eqn:?
  end;
  cbn [bind print call fst snd raised_by app].

Ltac exec :=
  unfold example_excitation, setattr;
  cbn [bind print call fst snd raised_by app];
  repeat exec_step.

(** Splits a membership in an explicit list into its cases. *)
Ltac in_cases H :=
  cbn [In] in H;
  repeat match type of H with
         | _ \/ _ => destruct H as [H | H]
         | False => destruct H
         | _ = _ => try discriminate H
         end.

(** When [run] is reached, every call before it has returned; the trace and
    the builder are then known in full. *)
Lemma run_reached (w : World) (code : Code) (b : Builder) (r : option exn) :
  In (EvCall (Run b) r) (snd (example_excitation w code)) ->
  let thisdir := posixpath.dirname (realpath_file w) in
  exists atoms structure molopt grb admm pseudo parameters b0,
    ase_io_read w (posixpath.join thisdir [".."; "files"; "acetylene.xyz"]) = Ret atoms /\
    StructureData_new w atoms = Ret structure /\
    SinglefileData_new w (posixpath.join thisdir [".."; "files"; "BASIS_MOLOPT"]) = Ret molopt /\
    SinglefileData_new w (posixpath.join thisdir [".."; "files"; "BASIS_ccGRB_UZH"]) = Ret grb /\
    SinglefileData_new w (posixpath.join thisdir [".."; "files"; "BASIS_ADMM_UZH"]) = Ret admm /\
    SinglefileData_new w (posixpath.join thisdir [".."; "files"; "GTH_POTENTIALS"]) = Ret pseudo /\
    Dict_new w parameters_dict = Ret parameters /\
    Code_get_builder w code = Ret b0 /\
    b = populated b0 code structure parameters molopt grb admm pseudo /\
    r = raised_by (engine_run w b) /\
    example_excitation w code =
      (engine_run w b,
       (preparation thisdir b0 code atoms structure parameters molopt grb admm pseudo
        ++ [EvCall (Run b) r])%list).
Proof.
  intros H thisdir. revert H. subst thisdir. exec; intros H; in_cases H.
  inversion H; subst. do 8 eexists. repeat split; try eassumption; reflexivity.
Qed.

(** Conversely, when every call before [run] returns, [run] is reached. *)
Lemma run_when_prepared (w : World) (code : Code) (atoms : Atoms)
    (structure : StructureData) (molopt grb admm pseudo : SinglefileData)
    (parameters : Dict) (b0 : Builder) :
  let thisdir := posixpath.dirname (realpath_file w) in
  let b := populated b0 code structure parameters molopt grb admm pseudo in
  ase_io_read w (posixpath.join thisdir [".."; "files"; "acetylene.xyz"]) = Ret atoms ->
  StructureData_new w atoms = Ret structure ->
  SinglefileData_new w (posixpath.join thisdir [".."; "files"; "BASIS_MOLOPT"]) = Ret molopt ->
  SinglefileData_new w (posixpath.join thisdir [".."; "files"; "BASIS_ccGRB_UZH"]) = Ret grb ->
  SinglefileData_new w (posixpath.join thisdir [".."; "files"; "BASIS_ADMM_UZH"]) = Ret admm ->
  SinglefileData_new w (posixpath.join thisdir [".."; "files"; "GTH_POTENTIALS"]) = Ret pseudo ->
  Dict_new w parameters_dict = Ret parameters ->
  Code_get_builder w code = Ret b0 ->
  (forall b' attr v, builder_validate w b' attr v = None) ->
  example_excitation w code =
    (engine_run w b,
     (preparation thisdir b0 code atoms structure parameters molopt grb admm pseudo
      ++ [EvCall (Run b) (raised_by (engine_run w b))])%list).
Proof.
  intros thisdir b Hatoms Hstructure Hmolopt Hgrb Hadmm Hpseudo Hparameters Hb0 Hvalid.
  subst thisdir b. unfold example_excitation, setattr.
  cbn [bind print call fst snd raised_by app].
  rewrite Hatoms. cbn [bind print call fst snd raised_by app].
  rewrite Hstructure. cbn [bind print call fst snd raised_by app].
  rewrite Hmolopt. cbn [bind print call fst snd raised_by app].
  rewrite Hgrb. cbn [bind print call fst snd raised_by app].
  rewrite Hadmm. cbn [bind print call fst snd raised_by app].
  rewrite Hpseudo. cbn [bind print call fst snd raised_by app].
  rewrite Hparameters. cbn [bind print call fst snd raised_by app].
  rewrite Hb0. cbn [bind print call fst snd raised_by app].
  rewrite !Hvalid. reflexivity.
Qed.

(** The execution in [world_ok]. *)
Lemma example_excitation_world_ok :
  example_excitation world_ok (mkCode 0) =
    (Ret tt,
     (preparation "/repo/examples/single_calculations" (<["code" := VCode (mkCode 0)]> ∅)
        (mkCode 0) (mkAtoms 0) (mkStructureData 0) (mkDict 0) (mkSinglefileData 1)
        (mkSinglefileData 2) (mkSinglefileData 3) (mkSinglefileData 4)
      ++ [EvCall (Run builder_ok) None])%list).
Proof. apply (run_when_prepared world_ok); reflexivity. Qed.

(** Only the literal [parameters_dict] is ever wrapped into a [Dict]. *)
Lemma dict_args_parameters (w : World) (code : Code) (d : PyVal) :
  In d (dict_args (snd (example_excitation w code))) -> d = parameters_dict.
Proof.
  exec; unfold dict_args; cbn [flat_map app]; intros H; in_cases H;
    symmetry; exact H.
Qed.

(** ** The configuration tree *)

(** C1, as amended: in the tree that [example_excitation] wraps into its
    parameters [Dict], the number of excited states,
    FORCE_EVAL.PROPERTIES.TDDFPT.NSTATES, is 2; the literal 1 is the value of
    FORCE_EVAL.DFT.EXCITED_STATES.STATE, the state that is selected. *)
Theorem excited_states_parameters (w : World) (code : Code) (d : PyVal) :
  In d (dict_args (snd (example_excitation w code))) ->
  getpath d ["FORCE_EVAL"; "PROPERTIES"; "TDDFPT"; "NSTATES"] = Some (PyInt 2) /\
  getpath d ["FORCE_EVAL"; "DFT"; "EXCITED_STATES"; "STATE"] = Some (PyInt 1).
Proof.
  intros H. apply dict_args_parameters in H. subst d.
  split; vm_compute; reflexivity.
Qed.

Lemma excited_states_parameters_witness :
  getpath parameters_dict ["FORCE_EVAL"; "PROPERTIES"; "TDDFPT"; "NSTATES"] = Some (PyInt 2) /\
  getpath parameters_dict ["FORCE_EVAL"; "DFT"; "EXCITED_STATES"; "STATE"] = Some (PyInt 1).
Proof.
  apply (excited_states_parameters world_ok (mkCode 0)).
  lazy - [parameters_dict]. left. reflexivity.
Defined.

(** C1, as stated, fails: the tree that the script builds in a world where
    everything succeeds holds 2, not 1, as its number of excited states. *)
Lemma nstates_is_not_one :
  In parameters_dict (dict_args (snd (example_excitation world_ok (mkCode 0)))) /\
  getpath parameters_dict ["FORCE_EVAL"; "PROPERTIES"; "TDDFPT"; "NSTATES"]
    <> Some (PyInt 1).
Proof.
  split.
  - lazy - [parameters_dict]. left. reflexivity.
  - vm_compute. discriminate.
Qed.

(** C6: in the tree that [example_excitation] wraps into its parameters
    [Dict], FORCE_EVAL.DFT.MGRID.CUTOFF is 900 and REL_CUTOFF is 60. *)
Theorem cutoff_parameters (w : World) (code : Code) (d : PyVal) :
  In d (dict_args (snd (example_excitation w code))) ->
  getpath d ["FORCE_EVAL"; "DFT"; "MGRID"; "CUTOFF"] = Some (PyInt 900) /\
  getpath d ["FORCE_EVAL"; "DFT"; "MGRID"; "REL_CUTOFF"] = Some (PyInt 60).
Proof.
  intros H. apply dict_args_parameters in H. subst d.
  split; vm_compute; reflexivity.
Qed.

Lemma cutoff_parameters_witness :
  getpath parameters_dict ["FORCE_EVAL"; "DFT"; "MGRID"; "CUTOFF"] = Some (PyInt 900) /\
  getpath parameters_dict ["FORCE_EVAL"; "DFT"; "MGRID"; "REL_CUTOFF"] = Some (PyInt 60).
Proof.
  apply (cutoff_parameters world_ok (mkCode 0)).
  lazy - [parameters_dict]. left. reflexivity.
Defined.

(** ** The command *)

(** C2: when the lookup of the code label raises [NotExistent], [cli] prints
    one line that names the label and leaves through [sys.exit(1)], so
    the process ends with status 1; nothing of [example_excitation] has
    happened: neither its first line is printed nor is [run] called. *)
Theorem cli_unknown_code (w : World) (codelabel : string) :
  Code_get_from_string w codelabel = Raise NotExistent ->
  cli w codelabel =
    (Raise (SystemExit 1),
     [EvCall (GetFromString codelabel) (Some NotExistent);
      EvPrint ("The code '" +:+ codelabel +:+ "' does not exist.")]) /\
  exit_status (fst (cli w codelabel)) = 1%Z /\
  ~ In (EvPrint "Testing CP2K excited state ENERGY on acetylene (DFT-ADMM)...")
       (snd (cli w codelabel)) /\
  run_count (snd (cli w codelabel)) = 0.
Proof.
  intros H. unfold cli, try_except, call. rewrite H. cbn.
  repeat split. intros [Hc | [Hc | []]]; [discriminate Hc | inversion Hc].
Qed.

Lemma cli_unknown_code_witness :
  exit_status (fst (cli world_ok "cp2k@nowhere")) = 1%Z /\
  printed (snd (cli world_ok "cp2k@nowhere")) = ["The code 'cp2k@nowhere' does not exist."].
Proof.
  destruct (cli_unknown_code world_ok "cp2k@nowhere") as (Hcli & Hstatus & _).
  - reflexivity.
  - split; [exact Hstatus | rewrite Hcli; reflexivity].
Defined.

(** What [cli] does once the lookup has returned a code: the lookup, then
    [example_excitation] on that code, and nothing else. *)
Lemma cli_found (w : World) (codelabel : string) (code : Code) :
  Code_get_from_string w codelabel = Ret code ->
  cli w codelabel =
    (fst (example_excitation w code),
     EvCall (GetFromString codelabel) None :: snd (example_excitation w code)).
Proof.
  intros H. unfold cli, try_except, call. rewrite H. cbn [bind raised_by].
  now destruct (example_excitation w code).
Qed.

(** C4: when the lookup returns a code and the submission,
    [example_excitation] on that code, returns, [cli] returns as well,
    without any exit of its own, so the process ends with status 0; and the
    command declares one positional argument, the code label. *)
Theorem cli_success (w : World) (codelabel : string) (code : Code) :
  Code_get_from_string w codelabel = Ret code ->
  fst (example_excitation w code) = Ret tt ->
  fst (cli w codelabel) = Ret tt /\
  exit_status (fst (cli w codelabel)) = 0%Z /\
  snd (cli w codelabel) =
    EvCall (GetFromString codelabel) None :: snd (example_excitation w code) /\
  cmd_arguments (cli_command w) = ["codelabel"] /\
  cmd_callback (cli_command w) = cli w.
Proof.
  intros Hcode Hrun. rewrite (cli_found w codelabel code Hcode). cbn [fst snd].
  rewrite Hrun. repeat split.
Qed.

Lemma cli_success_witness :
  fst (cli world_ok "cp2k@localhost") = Ret tt /\
  exit_status (fst (cli world_ok "cp2k@localhost")) = 0%Z.
Proof.
  destruct (cli_success world_ok "cp2k@localhost" (mkCode 0)) as (Hret & Hstatus & _).
  - reflexivity.
  - vm_compute. reflexivity.
  - split; assumption.
Defined.

(** ** Exceptions *)

(** C5: no exception is caught but the [NotExistent] of the code lookup.  In
    [example_excitation] a call that raises ends the execution: its
    exception is the outcome, unchanged, and it is the last event, so
    nothing is printed after it.  In [cli] the same holds of every call
    that raises, the lookup included, unless it is the lookup raising
    [NotExistent], which alone is turned into [sys.exit(1)].  An exception
    that comes out of [cli] is thus the one its last call raised, or that
    [SystemExit] of the handler. *)
Theorem unhandled_exceptions_propagate (w : World) (c : ExtCall) (e : exn) :
  (forall code,
     In (EvCall c (Some e)) (snd (example_excitation w code)) ->
     fst (example_excitation w code) = Raise e /\
     last (snd (example_excitation w code)) = Some (EvCall c (Some e))) /\
  (forall codelabel,
     In (EvCall c (Some e)) (snd (cli w codelabel)) ->
     if handled_by_cli c e
     then c = GetFromString codelabel /\ e = NotExistent /\
          fst (cli w codelabel) = Raise (SystemExit 1)
     else fst (cli w codelabel) = Raise e /\
          last (snd (cli w codelabel)) = Some (EvCall c (Some e))) /\
  (forall codelabel,
     fst (cli w codelabel) = Raise e ->
     (exists c', last (snd (cli w codelabel)) = Some (EvCall c' (Some e))) \/
     (e = SystemExit 1 /\
      In (EvCall (GetFromString codelabel) (Some NotExistent)) (snd (cli w codelabel)))).
Proof.
  split; [| split].
  - intros code. apply propagates_raised, example_excitation_propagates.
  - intros codelabel.
    destruct (Code_get_from_string w codelabel) as [code | e0] eqn:Hlookup.
    + rewrite (cli_found w codelabel code Hlookup). cbn [fst snd].
      intros [Hc | Hc]; [discriminate Hc |].
      assert (Hnl : handled_by_cli c e = false).
      { pose proof (example_excitation_no_lookup w code) as Hno.
        unfold emits_only in Hno. rewrite Forall_forall in Hno.
        specialize (Hno _ ltac:(apply list_elem_of_In; exact Hc)). now destruct c. }
      rewrite Hnl.
      destruct (propagates_raised _ c e (example_excitation_propagates w code) Hc)
        as [Hfst Hlast].
      split; [exact Hfst |].
      destruct (snd (example_excitation w code)) as [|ev tr]; [destruct Hc |].
      exact Hlast.
    + unfold cli, try_except, call. rewrite Hlookup.
      destruct e0; cbn; intros Hc; in_cases Hc; inversion Hc; subst; cbn; auto.
  - intros codelabel.
    destruct (Code_get_from_string w codelabel) as [code | e0] eqn:Hlookup.
    + rewrite (cli_found w codelabel code Hlookup). cbn [fst snd]. intros Hraise.
      pose proof (example_excitation_propagates w code) as Hprop.
      destruct (example_excitation w code) as [o tr]. cbn [fst] in Hraise. subst o.
      destruct Hprop as (pre & c' & -> & _). left. exists c'. cbn [snd].
      rewrite app_comm_cons. apply last_snoc.
    + unfold cli, try_except, call. rewrite Hlookup.
      destruct e0; cbn; intros Hraise; inversion Hraise; subst.
      * right. auto.
      * left. eexists. reflexivity.
      * left. eexists. reflexivity.
Qed.

Lemma unhandled_exceptions_propagate_witness :
  fst (cli world_no_geometry "cp2k@localhost") = Raise (Exception "FileNotFoundError").
Proof.
  destruct (unhandled_exceptions_propagate world_no_geometry
              (AseRead "/repo/examples/single_calculations/../files/acetylene.xyz")
              (Exception "FileNotFoundError")) as (_ & Hcli & _).
  specialize (Hcli "cp2k@localhost"). cbn [handled_by_cli] in Hcli.
  apply Hcli. vm_compute. right. right. left. reflexivity.
Defined.

(** ** Files *)

(** C8: the script writes no file.  No event of an execution of [cli] or of
    [example_excitation] is a file write (each is a line printed or a call
    into ase or aiida), so the files after the execution are the files
    before it. *)
Theorem script_writes_no_file (w : World) (codelabel : string) (code : Code)
    (fs : gmap string string) :
  Forall (fun ev => is_file_write ev = false) (snd (cli w codelabel)) /\
  Forall (fun ev => is_file_write ev = false) (snd (example_excitation w code)) /\
  fs_after (snd (cli w codelabel)) fs = fs /\
  fs_after (snd (example_excitation w code)) fs = fs.
Proof.
  pose proof (cli_writes_nothing w codelabel) as Hcli.
  pose proof (example_excitation_writes_nothing w code) as Hex.
  unfold emits_only in Hcli, Hex.
  repeat split; try (apply fs_after_unchanged; assumption).
  - eapply Forall_impl; [exact Hcli |]. intros ev Hev. now destruct ev.
  - eapply Forall_impl; [exact Hex |]. intros ev Hev. now destruct ev.
Qed.

(** C7: the files [example_excitation] reads are the five fixed paths under
    the directory of the script, in this order: the geometry, read by
    [ase.io.read], then the three basis-set files and the pseudopotential
    file, read by [SinglefileData].  An execution reads a first part of
    them, all five when it returns, and no other file. *)
Theorem input_files_read (w : World) (code : Code) :
  let thisdir := posixpath.dirname (realpath_file w) in
  let tr := snd (example_excitation w code) in
  input_files thisdir =
    [ posixpath.join thisdir [".."; "files"; "acetylene.xyz"];
      posixpath.join thisdir [".."; "files"; "BASIS_MOLOPT"];
      posixpath.join thisdir [".."; "files"; "BASIS_ccGRB_UZH"];
      posixpath.join thisdir [".."; "files"; "BASIS_ADMM_UZH"];
      posixpath.join thisdir [".."; "files"; "GTH_POTENTIALS"] ] /\
  read_paths tr `prefix_of` input_files thisdir /\
  (fst (example_excitation w code) = Ret tt -> read_paths tr = input_files thisdir) /\
  (forall p r, In (EvCall (AseRead p) r) tr ->
               p = posixpath.join thisdir [".."; "files"; "acetylene.xyz"]) /\
  (forall p r, In (EvCall (NewSinglefileData p) r) tr ->
               In p (tail (input_files thisdir))).
Proof.
  intros thisdir tr. subst thisdir tr. split; [reflexivity |].
  unfold input_files. cbn [map tail].
  exec; (split; [| split; [| split]]).
  all: try (unfold read_paths; cbn [flat_map app]; eexists; reflexivity).
  all: try (intros Hret; first [discriminate Hret | reflexivity]).
  all: intros p r H; in_cases H; inversion H; subst; cbn [In]; tauto.
Qed.

Lemma input_files_read_witness :
  read_paths (snd (example_excitation world_ok (mkCode 0)))
  = input_files "/repo/examples/single_calculations".
Proof.
  destruct (input_files_read world_ok (mkCode 0)) as (_ & _ & Hall & _).
  apply Hall. vm_compute. reflexivity.
Defined.

(** ** The submission *)

Lemma run_count_app (t1 t2 : list Event) :
  run_count (t1 ++ t2) = run_count t1 + run_count t2.
Proof.
  unfold run_count, run_builders.
  induction t1 as [|ev t1 IH]; [reflexivity |].
  cbn [flat_map app]. rewrite !length_app, IH. lia.
Qed.

Lemma run_at_most_once (w : World) (code : Code) :
  run_count (snd (example_excitation w code)) <= 1.
Proof. exec; unfold run_count, run_builders; cbn [flat_map app length]; lia. Qed.

Lemma returns_after_run (w : World) (code : Code) :
  fst (example_excitation w code) = Ret tt ->
  exists b, In (EvCall (Run b) None) (snd (example_excitation w code)).
Proof.
  exec; intros Hret; try discriminate Hret.
  eexists. rewrite Hret. cbn [raised_by In]. do 16 right. left. reflexivity.
Qed.

(** The attributes of the builder that reaches [run]. *)
Lemma populated_lookup (b0 : Builder) (code : Code) (structure : StructureData)
    (parameters : Dict) (molopt grb admm pseudo : SinglefileData) :
  let b := populated b0 code structure parameters molopt grb admm pseudo in
  b !! "structure" = Some (VStructure structure) /\
  b !! "parameters" = Some (VDict parameters) /\
  b !! "code" = Some (VCode code) /\
  b !! "file" =
    Some (VFiles (<["pseudo" := pseudo]> (<["basis_admm" := admm]>
                 (<["basis_grb" := grb]> (<["basis_molopt" := molopt]> ∅))))) /\
  b !! "metadata.options.resources" =
    Some (VIntDict (<["num_mpiprocs_per_machine" := 1%Z]> (<["num_machines" := 16%Z]> ∅))) /\
  b !! "metadata.options.max_wallclock_seconds" = Some (VInt 180).
Proof. unfold populated. cbv zeta. repeat split; by simplify_map_eq. Qed.

(** When every call before [run] returns, [run] is called, on the populated
    builder, whatever [run] then does. *)
Lemma run_when_all_return (w : World) (code : Code) (atoms : Atoms)
    (structure : StructureData) (molopt grb admm pseudo : SinglefileData)
    (parameters : Dict) (b0 : Builder) :
  prepared w code atoms structure molopt grb admm pseudo parameters b0 ->
  let b := populated b0 code structure parameters molopt grb admm pseudo in
  example_excitation w code =
    (engine_run w b,
     (preparation (posixpath.dirname (realpath_file w)) b0 code atoms structure
        parameters molopt grb admm pseudo
      ++ [EvCall (Run b) (raised_by (engine_run w b))])%list).
Proof.
  unfold prepared. cbv zeta.
  intros (Hatoms & Hstructure & Hmolopt & Hgrb & Hadmm & Hpseudo & Hparameters & Hb0 &
          V1 & V2 & V3 & V4 & V5 & V6).
  unfold example_excitation, setattr.
  cbn [bind print call fst snd raised_by app].
  rewrite Hatoms. cbn [bind print call fst snd raised_by app].
  rewrite Hstructure. cbn [bind print call fst snd raised_by app].
  rewrite Hmolopt. cbn [bind print call fst snd raised_by app].
  rewrite Hgrb. cbn [bind print call fst snd raised_by app].
  rewrite Hadmm. cbn [bind print call fst snd raised_by app].
  rewrite Hpseudo. cbn [bind print call fst snd raised_by app].
  rewrite Hparameters. cbn [bind print call fst snd raised_by app].
  rewrite Hb0. cbn [bind print call fst snd raised_by app].
  rewrite V1. cbn [bind print call fst snd raised_by app].
  rewrite V2. cbn [bind print call fst snd raised_by app].
  rewrite V3. cbn [bind print call fst snd raised_by app].
  rewrite V4. cbn [bind print call fst snd raised_by app].
  rewrite V5. cbn [bind print call fst snd raised_by app].
  change (VInt (1 * 3 * 60)) with (VInt 180).
  rewrite V6. reflexivity.
Qed.

(** Conversely, [run] is called only when every call before it has
    returned. *)
Lemma run_only_when_all_return (w : World) (code : Code) (b : Builder) (r : option exn) :
  In (EvCall (Run b) r) (snd (example_excitation w code)) ->
  exists atoms structure molopt grb admm pseudo parameters b0,
    prepared w code atoms structure molopt grb admm pseudo parameters b0 /\
    b = populated b0 code structure parameters molopt grb admm pseudo.
Proof.
  unfold prepared. cbv zeta.
  exec; intros H; in_cases H.
  inversion H; subst. do 8 eexists. repeat split; try eassumption; reflexivity.
Qed.

(** Once a call other than [run] has raised, [run] is not called. *)
Lemma no_run_after_failure (w : World) (code : Code) (c : ExtCall) (e : exn) :
  In (EvCall c (Some e)) (snd (example_excitation w code)) ->
  (forall b, c <> Run b) ->
  run_count (snd (example_excitation w code)) = 0.
Proof.
  exec;
    try match goal with
        | |- context [engine_run ?w ?b] => destruct (engine_run w b)
        end;
    unfold run_count, run_builders;
    cbn [raised_by flat_map app length]; intros H Hc; in_cases H; try reflexivity.
  inversion H; subst. exfalso. eapply Hc. reflexivity.
Qed.

(** C3, as amended: [example_excitation] calls [run] exactly once when
    every call before it returns, whatever [run] then does, and not at all
    when one of them raises; it never calls [run] twice.  A call of [run] is
    its last event, and the builder it gets has structure, parameters, code,
    files, resources and wall-clock limit set, each assigned exactly once
    before the call: the structure made from the geometry file, the [Dict]
    of the configuration tree, and the code that was passed in. *)
Theorem example_excitation_submits_once (w : World) (code : Code) :
  let thisdir := posixpath.dirname (realpath_file w) in
  let tr := snd (example_excitation w code) in
  run_count tr <= 1 /\
  (forall atoms structure molopt grb admm pseudo parameters b0,
     prepared w code atoms structure molopt grb admm pseudo parameters b0 ->
     run_count tr = 1 /\
     run_builders tr = [populated b0 code structure parameters molopt grb admm pseudo]) /\
  (forall c e, In (EvCall c (Some e)) tr -> (forall b, c <> Run b) -> run_count tr = 0) /\
  (fst (example_excitation w code) = Ret tt -> run_count tr = 1) /\
  (forall b r, In (EvCall (Run b) r) tr ->
     (exists atoms structure molopt grb admm pseudo parameters b0,
        prepared w code atoms structure molopt grb admm pseudo parameters b0 /\
        b = populated b0 code structure parameters molopt grb admm pseudo) /\
     exists pre,
       tr = (pre ++ [EvCall (Run b) r])%list /\
       run_count pre = 0 /\
       (forall attr, In attr populated_attrs ->
                     exists v, assigned attr pre = [v] /\ b !! attr = Some v) /\
       b !! "code" = Some (VCode code) /\
       (exists atoms structure,
          ase_io_read w (posixpath.join thisdir [".."; "files"; "acetylene.xyz"]) = Ret atoms /\
          StructureData_new w atoms = Ret structure /\
          b !! "structure" = Some (VStructure structure)) /\
       (exists parameters,
          Dict_new w parameters_dict = Ret parameters /\
          b !! "parameters" = Some (VDict parameters)) /\
       (exists files, b !! "file" = Some (VFiles files)) /\
       (exists resources, b !! "metadata.options.resources" = Some (VIntDict resources))).
Proof.
  intros thisdir tr.
  match goal with |- _ /\ _ /\ _ /\ _ /\ ?P => assert (Hrun : P) end.
  { intros b r Hb. subst tr thisdir.
    split; [exact (run_only_when_all_return w code b r Hb) |].
    destruct (run_reached w code b r Hb)
      as (atoms & structure & molopt & grb & admm & pseudo & parameters & b0 &
          Hatoms & Hstructure & _ & _ & _ & _ & Hparameters & _ & Hbuilder & _ & Htrace).
    destruct (populated_lookup b0 code structure parameters molopt grb admm pseudo)
      as (Ls & Lp & Lc & Lf & Lr & Lw).
    rewrite <- Hbuilder in Ls, Lp, Lc, Lf, Lr, Lw.
    eexists. split; [rewrite Htrace; reflexivity |].
    split; [reflexivity |].
    split.
    { intros attr Hattr. unfold populated_attrs in Hattr. in_cases Hattr; subst attr;
        eexists; (split; [reflexivity | eassumption]). }
    split; [exact Lc |].
    split; [exists atoms, structure; auto |].
    split; [exists parameters; auto |].
    split; eexists; eassumption. }
  split; [apply run_at_most_once |].
  split.
  { intros atoms structure molopt grb admm pseudo parameters b0 Hprep.
    subst tr. rewrite (run_when_all_return w code _ _ _ _ _ _ _ _ Hprep).
    cbn [snd]. split; reflexivity. }
  split; [intros c e; subst tr; apply no_run_after_failure |].
  split; [| exact Hrun].
  intros Hret. destruct (returns_after_run w code Hret) as [b Hb].
  destruct (Hrun b None Hb) as (_ & pre & Htr & Hpre & _).
  rewrite Htr, run_count_app, Hpre. reflexivity.
Qed.

Lemma example_excitation_submits_once_witness :
  run_builders (snd (example_excitation world_ok (mkCode 0))) = [builder_ok] /\
  run_count (snd (example_excitation world_no_geometry (mkCode 0))) = 0.
Proof.
  split.
  - destruct (example_excitation_submits_once world_ok (mkCode 0)) as (_ & Hall & _).
    apply (Hall (mkAtoms 0) (mkStructureData 0) (mkSinglefileData 1) (mkSinglefileData 2)
                (mkSinglefileData 3) (mkSinglefileData 4) (mkDict 0)
                (<["code" := VCode (mkCode 0)]> ∅)).
    unfold prepared. cbv zeta. repeat split; reflexivity.
  - destruct (example_excitation_submits_once world_no_geometry (mkCode 0))
      as (_ & _ & Hstop & _).
    apply (Hstop (AseRead "/repo/examples/single_calculations/../files/acetylene.xyz")
                 (Exception "FileNotFoundError")).
    + vm_compute. right. left. reflexivity.
    + intros b Hb. discriminate Hb.
Defined.

(** C3, as stated, fails: where the geometry file is missing,
    [example_excitation] raises before it gets to [run]. *)
Lemma run_not_called_without_geometry :
  fst (example_excitation world_no_geometry (mkCode 0)) = Raise (Exception "FileNotFoundError") /\
  run_count (snd (example_excitation world_no_geometry (mkCode 0))) = 0 /\
  run_count (snd (example_excitation world_no_geometry (mkCode 0))) <> 1.
Proof. repeat split. vm_compute. discriminate. Qed.

(** ** Attachments and resources *)

Lemma assigned_values (w : World) (code : Code) (attr : string) (v : Value) :
  In v (assigned attr (snd (example_excitation w code))) ->
  match v with
  | VFiles files =>
      attr = "file" /\
      dom files = {["basis_molopt"; "basis_grb"; "basis_admm"; "pseudo"]}
  | VIntDict resources =>
      attr = "metadata.options.resources" /\
      resources = <["num_mpiprocs_per_machine" := 1%Z]> (<["num_machines" := 16%Z]> ∅)
  | VInt z => attr = "metadata.options.max_wallclock_seconds" /\ z = 180%Z
  | VStructure _ => attr = "structure"
  | VDict _ => attr = "parameters"
  | VCode c => attr = "code" /\ c = code
  end.
Proof.
  assert (Hdom : forall f1 f2 f3 f4 : SinglefileData,
    dom (<["pseudo" := f4]> (<["basis_admm" := f3]>
        (<["basis_grb" := f2]> (<["basis_molopt" := f1]> (∅ : gmap string SinglefileData)))))
    = ({["basis_molopt"; "basis_grb"; "basis_admm"; "pseudo"]} : gset string)).
  { intros. rewrite !dom_insert_L, dom_empty_L. set_solver. }
  unfold assigned.
  exec; cbn [flat_map app]; intros H.
  all: repeat match type of H with
       | context [String.eqb ?a ?x] =>
           let Heq := fresh "Heq" in
           let Hne := fresh "Hne" in
           destruct (String.eqb_spec a x) as [Heq | Hne];
           [ try discriminate Heq; try subst x | try (now contradiction Hne) ];
           cbn [app In] in H
       end.
  all: in_cases H; subst v; auto.
Qed.

(** C10: when every call before [run] returns, the script hands [run] a
    builder whose file attachments have exactly the keys basis_molopt,
    basis_grb, basis_admm and pseudo, whose resources are num_machines = 16
    and num_mpiprocs_per_machine = 1 and nothing else, and whose wall-clock
    limit is 180 seconds, the value of 1 * 3 * 60; each of the three has been
    assigned once.  No builder gets to [run] without them, and the script
    never assigns other values to these attributes, also in executions that
    do not get to [run]. *)
Theorem builder_resource_options (w : World) (code : Code) :
  let tr := snd (example_excitation w code) in
  (forall atoms structure molopt grb admm pseudo parameters b0,
     prepared w code atoms structure molopt grb admm pseudo parameters b0 ->
     exists b files resources,
       run_builders tr = [b] /\
       b !! "file" = Some (VFiles files) /\
       assigned "file" tr = [VFiles files] /\
       dom files = {["basis_molopt"; "basis_grb"; "basis_admm"; "pseudo"]} /\
       b !! "metadata.options.resources" = Some (VIntDict resources) /\
       assigned "metadata.options.resources" tr = [VIntDict resources] /\
       resources !! "num_machines" = Some 16%Z /\
       resources !! "num_mpiprocs_per_machine" = Some 1%Z /\
       dom resources = {["num_machines"; "num_mpiprocs_per_machine"]} /\
       b !! "metadata.options.max_wallclock_seconds" = Some (VInt 180) /\
       assigned "metadata.options.max_wallclock_seconds" tr = [VInt 180]) /\
  (forall b r, In (EvCall (Run b) r) tr ->
     (exists files,
        b !! "file" = Some (VFiles files) /\
        dom files = {["basis_molopt"; "basis_grb"; "basis_admm"; "pseudo"]}) /\
     (exists resources,
        b !! "metadata.options.resources" = Some (VIntDict resources) /\
        resources !! "num_machines" = Some 16%Z /\
        resources !! "num_mpiprocs_per_machine" = Some 1%Z /\
        dom resources = {["num_machines"; "num_mpiprocs_per_machine"]}) /\
     b !! "metadata.options.max_wallclock_seconds" = Some (VInt 180)) /\
  (forall v, In v (assigned "file" tr) ->
     exists files, v = VFiles files /\
       dom files = {["basis_molopt"; "basis_grb"; "basis_admm"; "pseudo"]}) /\
  (forall v, In v (assigned "metadata.options.resources" tr) ->
     v = VIntDict (<["num_mpiprocs_per_machine" := 1%Z]> (<["num_machines" := 16%Z]> ∅))) /\
  (forall v, In v (assigned "metadata.options.max_wallclock_seconds" tr) ->
     v = VInt 180).
Proof.
  intros tr. subst tr. split; [| repeat split].
  - intros atoms structure molopt grb admm pseudo parameters b0 Hprep.
    rewrite (run_when_all_return w code _ _ _ _ _ _ _ _ Hprep). cbn [snd].
    destruct (populated_lookup b0 code structure parameters molopt grb admm pseudo)
      as (_ & _ & _ & Lf & Lr & Lw).
    eexists _, _, _.
    split; [reflexivity |]. split; [exact Lf |]. split; [reflexivity |].
    split; [rewrite !dom_insert_L, dom_empty_L; set_solver |].
    split; [exact Lr |]. split; [reflexivity |].
    split; [by simplify_map_eq |]. split; [by simplify_map_eq |].
    split; [rewrite !dom_insert_L, dom_empty_L; set_solver |].
    split; [exact Lw | reflexivity].
  - destruct (run_reached w code b r H)
      as (atoms & structure & molopt & grb & admm & pseudo & parameters & b0 &
          _ & _ & _ & _ & _ & _ & _ & _ & Hbuilder & _).
    destruct (populated_lookup b0 code structure parameters molopt grb admm pseudo)
      as (_ & _ & _ & Lf & _).
    rewrite <- Hbuilder in Lf. eexists. split; [exact Lf |].
    rewrite !dom_insert_L, dom_empty_L. set_solver.
  - destruct (run_reached w code b r H)
      as (atoms & structure & molopt & grb & admm & pseudo & parameters & b0 &
          _ & _ & _ & _ & _ & _ & _ & _ & Hbuilder & _).
    destruct (populated_lookup b0 code structure parameters molopt grb admm pseudo)
      as (_ & _ & _ & _ & Lr & _).
    rewrite <- Hbuilder in Lr. eexists. split; [exact Lr |].
    split; [by simplify_map_eq |]. split; [by simplify_map_eq |].
    rewrite !dom_insert_L, dom_empty_L. set_solver.
  - destruct (run_reached w code b r H)
      as (atoms & structure & molopt & grb & admm & pseudo & parameters & b0 &
          _ & _ & _ & _ & _ & _ & _ & _ & Hbuilder & _).
    destruct (populated_lookup b0 code structure parameters molopt grb admm pseudo)
      as (_ & _ & _ & _ & _ & Lw).
    now rewrite <- Hbuilder in Lw.
  - intros v Hv. apply assigned_values in Hv.
    destruct v; try (exfalso; first [discriminate Hv | now destruct Hv]).
    destruct Hv as [_ Hdom]. now exists files.
  - intros v Hv. apply assigned_values in Hv.
    destruct v; try (exfalso; first [discriminate Hv | now destruct Hv]).
    destruct Hv as [_ ->]. reflexivity.
  - intros v Hv. apply assigned_values in Hv.
    destruct v; try (exfalso; first [discriminate Hv | now destruct Hv]).
    destruct Hv as [_ ->]. reflexivity.
Qed.

Lemma builder_resource_options_witness :
  exists b files resources,
    run_builders (snd (example_excitation world_ok (mkCode 0))) = [b] /\
    b !! "file" = Some (VFiles files) /\
    assigned "file" (snd (example_excitation world_ok (mkCode 0))) = [VFiles files] /\
    dom files = {["basis_molopt"; "basis_grb"; "basis_admm"; "pseudo"]} /\
    b !! "metadata.options.resources" = Some (VIntDict resources) /\
    assigned "metadata.options.resources" (snd (example_excitation world_ok (mkCode 0)))
    = [VIntDict resources] /\
    resources !! "num_machines" = Some 16%Z /\
    resources !! "num_mpiprocs_per_machine" = Some 1%Z /\
    dom resources = {["num_machines"; "num_mpiprocs_per_machine"]} /\
    b !! "metadata.options.max_wallclock_seconds" = Some (VInt 180) /\
    assigned "metadata.options.max_wallclock_seconds"
      (snd (example_excitation world_ok (mkCode 0))) = [VInt 180].
Proof.
  destruct (builder_resource_options world_ok (mkCode 0)) as (Hall & _).
  apply (Hall (mkAtoms 0) (mkStructureData 0) (mkSinglefileData 1) (mkSinglefileData 2)
              (mkSinglefileData 3) (mkSinglefileData 4) (mkDict 0)
              (<["code" := VCode (mkCode 0)]> ∅)).
  unfold prepared. cbv zeta. repeat split; reflexivity.
Defined.

(** C9: the files the parameters name are not the files attached.  In a
    builder that gets to [run], the attachments are the nodes loaded from
    BASIS_MOLOPT, BASIS_ccGRB_UZH, BASIS_ADMM_UZH and GTH_POTENTIALS, and the
    parameters are the [Dict] of the tree whose BASIS_SET_FILE_NAME is the
    list of BASIS_ccGRB_UZH and BASIS_ADMM_UZH and whose POTENTIAL_FILE_NAME
    is POTENTIAL_UZH.  So BASIS_MOLOPT and GTH_POTENTIALS are attached and
    named nowhere, and POTENTIAL_UZH is named and not attached. *)
Theorem attached_files_mismatch (w : World) (code : Code) (b : Builder) (r : option exn) :
  In (EvCall (Run b) r) (snd (example_excitation w code)) ->
  (exists parameters,
     Dict_new w parameters_dict = Ret parameters /\
     b !! "parameters" = Some (VDict parameters)) /\
  getpath parameters_dict ["FORCE_EVAL"; "DFT"; "BASIS_SET_FILE_NAME"]
    = Some (PyList [PyStr "BASIS_ccGRB_UZH"; PyStr "BASIS_ADMM_UZH"]) /\
  getpath parameters_dict ["FORCE_EVAL"; "DFT"; "POTENTIAL_FILE_NAME"]
    = Some (PyStr "POTENTIAL_UZH") /\
  referenced_files parameters_dict = ["BASIS_ccGRB_UZH"; "BASIS_ADMM_UZH"; "POTENTIAL_UZH"] /\
  (exists files,
     b !! "file" = Some (VFiles files) /\
     dom files = {["basis_molopt"; "basis_grb"; "basis_admm"; "pseudo"]} /\
     attached_from w files "basis_molopt" "BASIS_MOLOPT" /\
     attached_from w files "basis_grb" "BASIS_ccGRB_UZH" /\
     attached_from w files "basis_admm" "BASIS_ADMM_UZH" /\
     attached_from w files "pseudo" "GTH_POTENTIALS") /\
  ~ In "BASIS_MOLOPT" (referenced_files parameters_dict) /\
  ~ In "GTH_POTENTIALS" (referenced_files parameters_dict) /\
  ~ In "POTENTIAL_UZH" ["BASIS_MOLOPT"; "BASIS_ccGRB_UZH"; "BASIS_ADMM_UZH"; "GTH_POTENTIALS"].
Proof.
  intros Hb.
  destruct (run_reached w code b r Hb)
    as (atoms & structure & molopt & grb & admm & pseudo & parameters & b0 &
        _ & _ & Hmolopt & Hgrb & Hadmm & Hpseudo & Hparameters & _ & Hbuilder & _).
  destruct (populated_lookup b0 code structure parameters molopt grb admm pseudo)
    as (_ & Lp & _ & Lf & _).
  rewrite <- Hbuilder in Lp, Lf.
  assert (Href : referenced_files parameters_dict
                 = ["BASIS_ccGRB_UZH"; "BASIS_ADMM_UZH"; "POTENTIAL_UZH"])
    by (vm_compute; reflexivity).
  split; [exists parameters; auto |].
  split; [vm_compute; reflexivity |].
  split; [vm_compute; reflexivity |].
  split; [exact Href |].
  split.
  { eexists. split; [exact Lf |].
    split; [rewrite !dom_insert_L, dom_empty_L; set_solver |].
    repeat split; eexists _, _;
      (split; [apply basename_join_files; reflexivity |]);
      (split; [eassumption | by simplify_map_eq]). }
  rewrite Href. cbn [In].
  repeat split; intros H; in_cases H.
Qed.

Lemma attached_files_mismatch_witness :
  ~ In "BASIS_MOLOPT" (referenced_files parameters_dict) /\
  ~ In "POTENTIAL_UZH" ["BASIS_MOLOPT"; "BASIS_ccGRB_UZH"; "BASIS_ADMM_UZH"; "GTH_POTENTIALS"].
Proof.
  destruct (attached_files_mismatch world_ok (mkCode 0) builder_ok None)
    as (_ & _ & _ & _ & _ & Hm & _ & Hp).
  - rewrite example_excitation_world_ok. apply in_or_app. right. left. reflexivity.
  - split; assumption.
Defined.

(** * Further properties of the script *)

(** ** The layout of the input files *)

Section Layout.

Import posixpath.

Lemma head_append_sep (a x : string) :
  has_sep x = false -> head (a +:+ String sep x) = a +:+ "/".
Proof.
  intros Hx. induction a as [|c a IH].
  - change ("" +:+ String sep x) with (String sep x). cbn [head].
    rewrite Hx. reflexivity.
  - rewrite !append_cons. cbn [head]. rewrite has_sep_append. cbn [has_sep].
    rewrite Ascii.eqb_refl. cbn [orb]. rewrite orb_true_r. now rewrite IH.
Qed.

Lemma all_sep_append (a b : string) : all_sep (a +:+ b) = all_sep a && all_sep b.
Proof.
  induction a as [|c a IH]; [reflexivity |].
  rewrite append_cons. cbn [all_sep]. rewrite IH. now rewrite andb_assoc.
Qed.

(** Stripping leaves alone what does not end with a separator. *)
Lemma rstrip_sep_id (q : string) : endswith_sep q = false -> rstrip_sep q = q.
Proof.
  induction q as [|c q IH]; [reflexivity |].
  destruct q as [|c' q'].
  - cbn [endswith_sep rstrip_sep]. now intros ->.
  - intros Hq. change (endswith_sep (String c' q') = false) in Hq.
    specialize (IH Hq). cbn [rstrip_sep] in IH |- *. now rewrite IH.
Qed.

Lemma rstrip_sep_append_sep (a : string) :
  rstrip_sep (a +:+ "/") = rstrip_sep a.
Proof.
  induction a as [|c a IH]; [reflexivity |].
  rewrite append_cons. cbn [rstrip_sep]. now rewrite IH.
Qed.

(** What consists of separators ends with one, unless it is empty. *)
Lemma all_sep_endswith (q : string) :
  all_sep q = true -> is_empty q = false -> endswith_sep q = true.
Proof.
  induction q as [|c q IH]; [discriminate 2 |].
  cbn [all_sep]. intros [Hc Hq]%andb_true_iff _.
  destruct q as [|c' q']; [exact Hc |].
  change (endswith_sep (String c' q') = true). now apply IH.
Qed.

(** The directory name of a file directly under [q]. *)
Lemma dirname_append_file (q name : string) :
  has_sep name = false -> is_empty q = false -> endswith_sep q = false ->
  dirname (q +:+ String sep name) = q.
Proof.
  intros Hn He Hs. unfold dirname. rewrite head_append_sep by assumption.
  cbv zeta. rewrite is_empty_append, all_sep_append.
  destruct (all_sep q) eqn:Ha.
  - rewrite (all_sep_endswith q Ha He) in Hs. discriminate Hs.
  - cbn [negb andb]. rewrite rstrip_sep_append_sep. now apply rstrip_sep_id.
Qed.

(** The directory of the input files, spelled out. *)
Lemma files_dir_shape (d : string) :
  files_dir d = (d +:+ (if is_empty d || endswith_sep d then "" else "/")) +:+ "../files".
Proof.
  unfold files_dir, join. cbn [foldl].
  assert (H1 : join_step d ".." = (d +:+ (if is_empty d || endswith_sep d then "" else "/")) +:+ "..").
  { unfold join_step. change (startswith_sep "..") with false. cbv iota.
    destruct (is_empty d || endswith_sep d); now rewrite append_assoc. }
  rewrite H1.
  rewrite (join_step_append _ "files");
    [| reflexivity | apply is_empty_append | now rewrite endswith_sep_append].
  now rewrite !append_assoc.
Qed.

Lemma dirname_join_files (d name : string) :
  has_sep name = false ->
  dirname (join d [".."; "files"; name]) = files_dir d.
Proof.
  intros Hn. rewrite (join_files_shape d name Hn).
  rewrite <- append_assoc, <- files_dir_shape.
  apply dirname_append_file; [assumption | |]; rewrite files_dir_shape.
  - apply is_empty_append.
  - now rewrite endswith_sep_append.
Qed.

End Layout.

Lemma input_files_basenames (thisdir : string) :
  map posixpath.basename (input_files thisdir) = input_names.
Proof.
  unfold input_files, input_names. cbn [map].
  rewrite !basename_join_files by reflexivity. reflexivity.
Qed.

(** X7: wherever the script lies, its five input files are taken from one
    directory, [join(thisdir, '..', 'files')], and their base names are the
    five file names. *)
Theorem input_files_layout (thisdir : string) :
  Forall (fun p => posixpath.dirname p = files_dir thisdir) (input_files thisdir) /\
  map posixpath.basename (input_files thisdir) = input_names.
Proof.
  split; [| apply input_files_basenames].
  unfold input_files. cbn [map].
  repeat constructor; apply dirname_join_files; reflexivity.
Qed.

(** ** The order of the events of [example_excitation] *)

Lemma read_paths_prefix (w : World) (code : Code) :
  read_paths (snd (example_excitation w code))
  `prefix_of` input_files (posixpath.dirname (realpath_file w)).
Proof.
  unfold input_files. cbn [map].
  exec; unfold read_paths; cbn [flat_map app]; eexists; reflexivity.
Qed.

(** X8: no file is read twice.  The five input paths differ from each other
    wherever the script lies, and an execution reads each at most once. *)
Theorem input_files_read_once (w : World) (code : Code) :
  NoDup (input_files (posixpath.dirname (realpath_file w))) /\
  NoDup (read_paths (snd (example_excitation w code))).
Proof.
  assert (Hall : NoDup (input_files (posixpath.dirname (realpath_file w)))).
  { apply (NoDup_fmap_1 posixpath.basename).
    change (NoDup (map posixpath.basename
                     (input_files (posixpath.dirname (realpath_file w))))).
    rewrite input_files_basenames.
    unfold input_names. compute_done. }
  split; [exact Hall |].
  destruct (read_paths_prefix w code) as [k Hk]. rewrite Hk in Hall.
  now apply NoDup_app in Hall as [Hall _].
Qed.

(** X2: [example_excitation] first prints its opening line, whatever
    happens next.  Its other line, "Submitted calculation...", is printed
    exactly when [run] is called, right before the call and so before
    anything is known of the submission. *)
Theorem printed_lines (w : World) (code : Code) :
  let tr := snd (example_excitation w code) in
  tr !! 0 = Some (EvPrint testing_line) /\
  ((printed tr = [testing_line] /\ run_count tr = 0) \/
   (printed tr = [testing_line; submitted_line] /\ run_count tr = 1)) /\
  (forall b r, In (EvCall (Run b) r) tr ->
     exists pre, tr = (pre ++ [EvPrint submitted_line; EvCall (Run b) r])%list).
Proof.
  intros tr. subst tr. split; [| split].
  - exec; reflexivity.
  - exec; first [left; split; reflexivity | right; split; reflexivity].
  - intros b r Hb.
    destruct (run_reached w code b r Hb)
      as (atoms & structure & molopt & grb & admm & pseudo & parameters & b0 & H).
    do 10 destruct H as [_ H]. rewrite H. cbn [snd].
    exists (firstn 15 (preparation (posixpath.dirname (realpath_file w)) b0 code atoms
                         structure parameters molopt grb admm pseudo)).
    reflexivity.
Qed.

Lemma printed_lines_witness :
  exists pre,
    snd (example_excitation world_ok (mkCode 0)) =
    (pre ++ [EvPrint submitted_line; EvCall (Run builder_ok) None])%list.
Proof.
  destruct (printed_lines world_ok (mkCode 0)) as (_ & _ & Hrun).
  apply Hrun. rewrite example_excitation_world_ok.
  apply in_or_app. right. left. reflexivity.
Defined.

(** X3: an execution has at most one call that raises, in
    [example_excitation] and in [cli]; and once a call other than [run] has
    raised in [example_excitation], [run] is not called. *)
Theorem failure_stops_script (w : World) :
  (forall code, length (raised (snd (example_excitation w code))) <= 1) /\
  (forall codelabel, length (raised (snd (cli w codelabel))) <= 1) /\
  (forall code c e,
     In (c, e) (raised (snd (example_excitation w code))) ->
     (forall b, c <> Run b) ->
     run_count (snd (example_excitation w code)) = 0).
Proof.
  assert (Hone : forall code, length (raised (snd (example_excitation w code))) <= 1).
  { intros code. pose proof (example_excitation_propagates w code) as Hp.
    destruct (example_excitation w code) as [[[]|e] tr]; cbn [propagates snd] in *.
    - rewrite Hp. cbn. lia.
    - destruct Hp as (pre & c & -> & Hpre). rewrite raised_app, Hpre. cbn. lia. }
  split; [exact Hone |]. split.
  - intros codelabel.
    destruct (Code_get_from_string w codelabel) as [code | e0] eqn:Hlookup.
    + rewrite (cli_found w codelabel code Hlookup). cbn [snd].
      change (raised (EvCall (GetFromString codelabel) None
                        :: snd (example_excitation w code)))
        with (raised (snd (example_excitation w code))).
      apply Hone.
    + unfold cli, try_except, call. rewrite Hlookup.
      destruct e0; cbn; lia.
  - intros code c e. exec;
      try match goal with
          | |- context [engine_run ?w ?b] => destruct (engine_run w b)
          end;
      unfold raised, run_count, run_builders;
      cbn [raised_by flat_map app length]; intros H Hc; in_cases H; try reflexivity.
    inversion H; subst. exfalso. eapply Hc. reflexivity.
Qed.

Lemma failure_stops_script_witness :
  run_count (snd (example_excitation world_no_geometry (mkCode 0))) = 0.
Proof.
  destruct (failure_stops_script world_no_geometry) as (_ & _ & Hstop).
  apply (Hstop (mkCode 0)
           (AseRead "/repo/examples/single_calculations/../files/acetylene.xyz")
           (Exception "FileNotFoundError")).
  - vm_compute. left. reflexivity.
  - intros b Hb. discriminate Hb.
Defined.

(** A rejected assignment ends the script where it stands. *)
Example resources_rejected :
  fst (example_excitation world_rejects_resources (mkCode 0))
  = Raise (Exception "ValueError") /\
  assigned "metadata.options.max_wallclock_seconds"
    (snd (example_excitation world_rejects_resources (mkCode 0))) = [] /\
  printed (snd (example_excitation world_rejects_resources (mkCode 0))) = [testing_line].
Proof. vm_compute. repeat split. Qed.

(** X4: the builder is asked for only when all inputs are there.  A call of
    [get_builder] is made on the code that was passed in, and what comes
    before it is the loading of the inputs, each call of which has
    returned: the five files read in their order and the configuration tree
    wrapped into its [Dict]; nothing is read or wrapped after it.  So when
    reading the geometry or loading one of the four files raises,
    [get_builder] is not called. *)
Theorem builder_requested_after_inputs (w : World) (code : Code) :
  let thisdir := posixpath.dirname (realpath_file w) in
  let tr := snd (example_excitation w code) in
  (forall c r, In (EvCall (GetBuilder c) r) tr ->
     c = code /\
     r = raised_by (Code_get_builder w code) /\
     exists atoms structure molopt grb admm pseudo parameters post,
       ase_io_read w (posixpath.join thisdir [".."; "files"; "acetylene.xyz"]) = Ret atoms /\
       StructureData_new w atoms = Ret structure /\
       SinglefileData_new w (posixpath.join thisdir [".."; "files"; "BASIS_MOLOPT"]) = Ret molopt /\
       SinglefileData_new w (posixpath.join thisdir [".."; "files"; "BASIS_ccGRB_UZH"]) = Ret grb /\
       SinglefileData_new w (posixpath.join thisdir [".."; "files"; "BASIS_ADMM_UZH"]) = Ret admm /\
       SinglefileData_new w (posixpath.join thisdir [".."; "files"; "GTH_POTENTIALS"]) = Ret pseudo /\
       Dict_new w parameters_dict = Ret parameters /\
       tr = (inputs_loaded thisdir atoms ++ EvCall (GetBuilder code) r :: post)%list /\
       read_paths (inputs_loaded thisdir atoms) = input_files thisdir /\
       dict_args (inputs_loaded thisdir atoms) = [parameters_dict] /\
       read_paths post = [] /\
       dict_args post = []) /\
  (forall e c r,
     ase_io_read w (posixpath.join thisdir [".."; "files"; "acetylene.xyz"]) = Raise e ->
     ~ In (EvCall (GetBuilder c) r) tr) /\
  (forall p e c r,
     In p (tail (input_files thisdir)) ->
     SinglefileData_new w p = Raise e ->
     ~ In (EvCall (GetBuilder c) r) tr).
Proof.
  intros thisdir tr.
  match goal with |- ?P /\ _ => assert (Hreq : P) end.
  { subst thisdir tr. intros c r. unfold inputs_loaded, input_files. cbn [map].
    exec; intros H; in_cases H; inversion H; subst;
      (split; [reflexivity |]); (split; [reflexivity |]);
      do 8 eexists; repeat split; try eassumption; reflexivity. }
  split; [exact Hreq |]. split.
  - intros e c r Hraise Hc.
    destruct (Hreq c r Hc) as (_ & _ & atoms & ? & ? & ? & ? & ? & ? & ? & Hatoms & _).
    rewrite Hraise in Hatoms. discriminate Hatoms.
  - intros p e c r Hp Hraise Hc.
    destruct (Hreq c r Hc)
      as (_ & _ & ? & ? & ? & ? & ? & ? & ? & ? & _ & _ & H1 & H2 & H3 & H4 & _).
    subst thisdir. unfold input_files in Hp. cbn [map tail In] in Hp.
    destruct Hp as [<- | [<- | [<- | [<- | []]]]]; congruence.
Qed.

Lemma builder_requested_after_inputs_witness :
  (exists post,
     snd (example_excitation world_ok (mkCode 0)) =
     (inputs_loaded "/repo/examples/single_calculations" (mkAtoms 0)
      ++ EvCall (GetBuilder (mkCode 0)) None :: post)%list) /\
  ~ In (EvCall (GetBuilder (mkCode 0)) None)
       (snd (example_excitation world_no_geometry (mkCode 0))).
Proof.
  split.
  - destruct (builder_requested_after_inputs world_ok (mkCode 0)) as (Hreq & _).
    destruct (Hreq (mkCode 0) None)
      as (_ & _ & atoms & ? & ? & ? & ? & ? & ? & post & Hatoms & _ & _ & _ & _ & _ & _ &
          Htr & _).
    + rewrite example_excitation_world_ok. cbn [snd preparation app In].
      do 8 right. left. reflexivity.
    + injection Hatoms as <-. exists post. exact Htr.
  - destruct (builder_requested_after_inputs world_no_geometry (mkCode 0))
      as (_ & Hgeo & _).
    apply (Hgeo (Exception "FileNotFoundError")). reflexivity.
Defined.

(** ** The builder *)

(** X1: the script sets its six attributes and touches no other.  In a
    builder that gets to [run], every other attribute is as [get_builder]
    handed it out, and the six are set whatever was in them before. *)
Theorem builder_other_attributes_kept (w : World) (code : Code) (b b0 : Builder)
    (r : option exn) :
  In (EvCall (Run b) r) (snd (example_excitation w code)) ->
  Code_get_builder w code = Ret b0 ->
  (forall attr, ~ In attr populated_attrs -> b !! attr = b0 !! attr) /\
  dom b = dom b0 ∪ list_to_set populated_attrs.
Proof.
  intros Hb Hb0.
  destruct (run_reached w code b r Hb)
    as (atoms & structure & molopt & grb & admm & pseudo & parameters & b0' &
        _ & _ & _ & _ & _ & _ & _ & Hb0' & -> & _).
  rewrite Hb0 in Hb0'. injection Hb0' as <-.
  unfold populated, populated_attrs. split.
  - intros attr Hattr. cbn [In] in Hattr.
    rewrite !lookup_insert_ne; [reflexivity | | | | | |];
      intros <-; apply Hattr; tauto.
  - rewrite !dom_insert_L. cbn [list_to_set foldr].
    apply set_eq. intros x.
    rewrite !elem_of_union, !elem_of_singleton, elem_of_empty. tauto.
Qed.

Lemma builder_other_attributes_kept_witness :
  builder_preset !! "metadata.options.max_memory_kb" = Some (VInt 2000000).
Proof.
  destruct (builder_other_attributes_kept world_preset (mkCode 0) builder_preset
              (<["metadata.options.max_memory_kb" := VInt 2000000]>
               (<["code" := VCode (mkCode 0)]> ∅)) None) as [Hkept _].
  - rewrite (run_when_prepared world_preset (mkCode 0) (mkAtoms 0) (mkStructureData 0)
               (mkSinglefileData 1) (mkSinglefileData 2) (mkSinglefileData 3)
               (mkSinglefileData 4) (mkDict 0)
               (<["metadata.options.max_memory_kb" := VInt 2000000]>
                (<["code" := VCode (mkCode 0)]> ∅))); try reflexivity.
    apply in_or_app. right. left. reflexivity.
  - reflexivity.
  - rewrite (Hkept "metadata.options.max_memory_kb").
    + reflexivity.
    + unfold populated_attrs. cbn [In]. intros H. in_cases H.
Defined.

(** ** The command, from the lookup to the submission *)

Lemma example_excitation_prints (w : World) (code : Code) (msg : string) :
  In (EvPrint msg) (snd (example_excitation w code)) ->
  msg = testing_line \/ msg = submitted_line.
Proof.
  exec; intros H; in_cases H; inversion H; subst; auto.
Qed.

(** X5: [cli] looks the label up first, and once.  When the lookup returns
    a code, the rest of [cli] is [example_excitation] on that code, with its
    outcome and its events; when it raises, no call follows. *)
Theorem cli_lookup_first (w : World) (codelabel : string) :
  exists rest,
    snd (cli w codelabel) =
      EvCall (GetFromString codelabel) (raised_by (Code_get_from_string w codelabel))
      :: rest /\
    Forall (fun ev => not_lookup ev = true) rest /\
    match Code_get_from_string w codelabel with
    | Ret code =>
        rest = snd (example_excitation w code) /\
        fst (cli w codelabel) = fst (example_excitation w code)
    | Raise e =>
        Forall (fun ev => match ev with EvCall _ _ => False | _ => True end) rest
    end.
Proof.
  destruct (Code_get_from_string w codelabel) as [code | e] eqn:Hlookup.
  - rewrite (cli_found w codelabel code Hlookup). cbn [fst snd raised_by].
    eexists. split; [reflexivity |]. split; [| split; reflexivity].
    apply example_excitation_no_lookup.
  - unfold cli, try_except, call. rewrite Hlookup.
    destruct (is_NotExistent e); cbn; eexists; (split; [reflexivity |]);
      split; repeat constructor.
Qed.

(** X6: the line "The code '<label>' does not exist." is printed exactly
    when the lookup raises [NotExistent]: not when it raises anything else,
    and not by [example_excitation]. *)
Theorem not_exist_line_iff (w : World) (codelabel : string) :
  In (EvPrint (not_exist_line codelabel)) (snd (cli w codelabel)) <->
  exists e, Code_get_from_string w codelabel = Raise e /\ is_NotExistent e = true.
Proof.
  destruct (Code_get_from_string w codelabel) as [code | e] eqn:Hlookup.
  - rewrite (cli_found w codelabel code Hlookup). cbn [snd]. split.
    + intros [H | H]; [discriminate H |].
      apply example_excitation_prints in H. unfold not_exist_line in H.
      destruct H as [H | H]; inversion H.
    + intros (e & He & _). discriminate He.
  - unfold cli, try_except, call. rewrite Hlookup.
    destruct (is_NotExistent e) eqn:He; cbn; split.
    + intros _. exists e. auto.
    + intros _. right. left. reflexivity.
    + intros H. in_cases H.
    + intros (e' & He' & Hn). injection He' as <-. congruence.
Qed.

Lemma not_exist_line_iff_witness :
  In (EvPrint (not_exist_line "cp2k@nowhere")) (snd (cli world_ok "cp2k@nowhere")).
Proof.
  apply (not_exist_line_iff world_ok "cp2k@nowhere").
  exists NotExistent. split; reflexivity.
Defined.

(** X9: a normal return of [cli] means a submission that went through: the
    lookup returned a code, [run] was called once, as the last event, on a
    builder whose code is the one looked up, and [run] returned; no call
    has raised. *)
Theorem cli_returns_after_submission (w : World) (codelabel : string) :
  fst (cli w codelabel) = Ret tt ->
  exists code b,
    Code_get_from_string w codelabel = Ret code /\
    run_builders (snd (cli w codelabel)) = [b] /\
    last (snd (cli w codelabel)) = Some (EvCall (Run b) None) /\
    b !! "code" = Some (VCode code) /\
    engine_run w b = Ret tt /\
    raised (snd (cli w codelabel)) = [].
Proof.
  destruct (Code_get_from_string w codelabel) as [code | e] eqn:Hlookup.
  - rewrite (cli_found w codelabel code Hlookup). cbn [fst snd]. intros Hret.
    destruct (returns_after_run w code Hret) as [b Hb].
    destruct (run_reached w code b None Hb)
      as (atoms & structure & molopt & grb & admm & pseudo & parameters & b0 &
          _ & _ & _ & _ & _ & _ & _ & _ & Hbuilder & Hr & Htrace).
    destruct (populated_lookup b0 code structure parameters molopt grb admm pseudo)
      as (_ & _ & Lc & _).
    rewrite <- Hbuilder in Lc.
    rewrite Htrace in Hret |- *. cbn [fst snd] in Hret |- *.
    exists code, b. split; [reflexivity |].
    split; [reflexivity |].
    split; [rewrite app_comm_cons; apply last_snoc |].
    split; [exact Lc |]. split; [exact Hret |].
    rewrite app_comm_cons, raised_app. reflexivity.
  - unfold cli, try_except, call. rewrite Hlookup.
    destruct (is_NotExistent e); cbn; intros H; discriminate H.
Qed.

Lemma cli_returns_after_submission_witness :
  exists code b,
    Code_get_from_string world_ok "cp2k@localhost" = Ret code /\
    run_builders (snd (cli world_ok "cp2k@localhost")) = [b] /\
    last (snd (cli world_ok "cp2k@localhost")) = Some (EvCall (Run b) None) /\
    b !! "code" = Some (VCode code) /\
    engine_run world_ok b = Ret tt /\
    raised (snd (cli world_ok "cp2k@localhost")) = [].
Proof.
  apply (cli_returns_after_submission world_ok "cp2k@localhost").
  vm_compute. reflexivity.
Defined.
